(** * Energy model of the jump-jump oscillator

    Shallow embedding of [energia_mecanica_of_jump-jump.py].

    The script computes with Python/NumPy floating-point numbers.  The
    arithmetic it relies on is collected in the class [PyNum], and the
    constants and [calcular_Energias] are written once, line by line after
    the source, over any instance of that class.  Three instances are used:

    - [R_num]: exact real arithmetic, in which the energy identities of the
      model are stated and proved;
    - [NaN_num]: exact reals extended with an undefined value, where a square
      root of a negative number and a division by zero are undefined, as
      they are for NumPy ([nan]) -- used to show that no such operation is
      reached on the domain of the model;
    - [B64_num]: IEEE-754 binary64, the numbers the script really runs on --
      used to evaluate the code at concrete inputs, bit for bit. *)

From Stdlib Require Import ZArith QArith Reals Lra Lia List Bool Factorial.
From Stdlib Require Floats.
Import ListNotations.

(** ** The arithmetic interface of the script *)

Class PyNum (T : Type) : Type := {
  py_int  : Z -> T;            (* a Python [int] entering float arithmetic *)
  py_add  : T -> T -> T;
  py_sub  : T -> T -> T;
  py_mul  : T -> T -> T;
  py_div  : T -> T -> T;       (* true division [/] *)
  py_sqrt : T -> T;            (* [np.sqrt] *)
  py_abs  : T -> T;            (* [abs] *)
  py_lt   : T -> T -> bool;    (* [<] *)
  py_le   : T -> T -> bool     (* [<=] *)
}.

Declare Scope py_scope.
Delimit Scope py_scope with py.

Notation "a + b" := (py_add a b) : py_scope.
Notation "a - b" := (py_sub a b) : py_scope.
Notation "a * b" := (py_mul a b) : py_scope.
Notation "a / b" := (py_div a b) : py_scope.
Notation "a <? b" := (py_lt a b) : py_scope.
Notation "a <=? b" := (py_le a b) : py_scope.

(** The six values returned by [calcular_Energias], in the order of the
    returned tuple: [(E_mec, K_c, U_g, U_el, v, x)]. *)
Record Energias (T : Type) : Type := mkEnergias {
  E_mec : T;        (* total mechanical energy, recomputed *)
  K_c   : T;        (* kinetic energy *)
  U_g   : T;        (* gravitational potential energy *)
  U_el  : T;        (* elastic potential energy *)
  velocidade : T;   (* [v] *)
  deformacao : T    (* [x] *)
}.

Arguments mkEnergias {T}.
Arguments E_mec {T}.
Arguments K_c {T}.
Arguments U_g {T}.
Arguments U_el {T}.
Arguments velocidade {T}.
Arguments deformacao {T}.

Section Modelo.

Context {T : Type} `{PyNum T}.
Local Open Scope py_scope.

(** A decimal literal of the source, given as the rational it is written
    as: the quotient of two integers.  In binary64 both integers are exact
    and the division is correctly rounded, so this is the double the
    literal denotes (checked in [Cenarios.literals]). *)
Definition lit (q : Q) : T := py_int (Qnum q) / py_int (Zpos (Qden q)).

(** [a**2], as the product [a * a].  On doubles the power can differ from
    the product in the last bit, and it overflows past the range of a
    double; statements about computed energies are made within
    [tolerancia] and, outside [[0, y_max]], on bounded positions. *)
Definition sq (a : T) : T := a * a.

(** *** Constantes do sistema (lines 9-22) *)

Definition m : T := py_int 90.
Definition g : T := lit 9.81.
Definition x_max : T := lit 0.5.
Definition y_max : T := py_int 1.

Definition k : T := py_int 2 * m * g * y_max / sq x_max.

Definition A : T := y_max / py_int 2.

Definition dt : T := lit 0.05.

(** [np.isclose(a, b, rtol, atol)] on finite scalars:
    [abs(a - b) <= atol + rtol * abs(b)]. *)
Definition isclose (a b rtol atol : T) : bool :=
  py_abs (a - b) <=? atol + rtol * py_abs b.

(** Default relative tolerance of [np.isclose]. *)
Definition rtol_default : T := lit 1e-05.

(** *** calcular_Energias (lines 27-66) *)

(** Lines 40-43: the deformation, from the position as it was passed. *)
Definition deformacao_mola (y : T) : T :=
  if y <? x_max then x_max - y else py_int 0.

(** Lines 46-47: a position close to zero is set to zero.  [np.any] of the
    single boolean that [np.isclose] returns for a scalar is that boolean. *)
Definition ajusta (y : T) : T :=
  if isclose y (lit 0.0) rtol_default (lit 1e-3) then py_int 0 else y.

(** Line 50. *)
Definition E_t : T := m * g * y_max.

(** The function, statement by statement.  The second [let y] shadows the
    argument, as the assignment [y = 0] does in the source. *)
Definition calcular_Energias (y : T) : Energias T :=
  let x := if y <? x_max then x_max - y else py_int 0 in
  let y := if isclose y (lit 0.0) rtol_default (lit 1e-3) then py_int 0 else y in
  let E_t := m * g * y_max in
  let U_g := m * g * y in
  let U_el := lit 0.5 * k * sq x in
  let v :=
    if (x_max <? y) && (y <? y_max) then
      py_sqrt (py_int 2 * (E_t - U_g) / m)
    else if (py_int 0 <? y) && (y <? x_max) then
      py_sqrt (py_int 2 / m * (E_t - U_g - U_el))
    else py_int 0 in
  let K_c := lit 0.5 * m * sq v in
  let E_mec := K_c + U_g + U_el in
  mkEnergias E_mec K_c U_g U_el v x.

End Modelo.

Definition Energias_map {X Y : Type} (f : X -> Y) (e : Energias X) : Energias Y :=
  mkEnergias (f (E_mec e)) (f (K_c e)) (f (U_g e)) (f (U_el e))
             (f (velocidade e)) (f (deformacao e)).

(** ** Exact real arithmetic *)

Definition Rltb (a b : R) : bool := if Rlt_dec a b then true else false.
Definition Rleb (a b : R) : bool := if Rle_dec a b then true else false.

#[export] Instance R_num : PyNum R := {
  py_int := IZR;
  py_add := Rplus;
  py_sub := Rminus;
  py_mul := Rmult;
  py_div := Rdiv;
  py_sqrt := sqrt;
  py_abs := Rabs;
  py_lt := Rltb;
  py_le := Rleb
}.

(** ** Reals with an undefined value

    [None] plays the part of NumPy's [nan]: it is what a square root of a
    negative number and a division by zero give, every operation
    propagates it, and every comparison with it is false. *)

Definition nan_lift2 (f : R -> R -> R) (a b : option R) : option R :=
  match a, b with
  | Some u, Some w => Some (f u w)
  | _, _ => None
  end.

Definition nan_div (a b : option R) : option R :=
  match a, b with
  | Some u, Some w => if Req_dec_T w 0 then None else Some (u / w)%R
  | _, _ => None
  end.

Definition nan_sqrt (a : option R) : option R :=
  match a with
  | Some u => if Rlt_dec u 0 then None else Some (sqrt u)
  | None => None
  end.

Definition nan_cmp (c : R -> R -> bool) (a b : option R) : bool :=
  match a, b with
  | Some u, Some w => c u w
  | _, _ => false
  end.

#[export] Instance NaN_num : PyNum (option R) := {
  py_int := fun z => Some (IZR z);
  py_add := nan_lift2 Rplus;
  py_sub := nan_lift2 Rminus;
  py_mul := nan_lift2 Rmult;
  py_div := nan_div;
  py_sqrt := nan_sqrt;
  py_abs := option_map Rabs;
  py_lt := nan_cmp Rltb;
  py_le := nan_cmp Rleb
}.

(** ** IEEE-754 binary64 *)

Module B64.

Definition of_Z (z : Z) : PrimFloat.float :=
  match z with
  | Z0 => PrimFloat.zero
  | Zpos _ => PrimFloat.of_uint63 (Uint63.of_Z z)
  | Zneg p => PrimFloat.opp (PrimFloat.of_uint63 (Uint63.of_Z (Zpos p)))
  end.

#[export] Instance B64_num : PyNum PrimFloat.float := {
  py_int := of_Z;
  py_add := PrimFloat.add;
  py_sub := PrimFloat.sub;
  py_mul := PrimFloat.mul;
  py_div := PrimFloat.div;
  py_sqrt := PrimFloat.sqrt;
  py_abs := PrimFloat.abs;
  py_lt := PrimFloat.ltb;
  py_le := PrimFloat.leb
}.

(** The real number a finite double stands for; [0] for the others. *)
Definition to_R (f : PrimFloat.float) : R :=
  match FloatOps.Prim2SF f with
  | SpecFloat.S754_finite s mant e =>
      let n := if s then Zneg mant else Zpos mant in
      match e with
      | Zneg p => (IZR n / IZR (Z.pow_pos 2 p))%R
      | _ => IZR (n * 2 ^ e)
      end
  | _ => 0%R
  end.

End B64.

(** ** The trajectory (lines 21, 72-83), in exact real arithmetic *)

Local Open Scope R_scope.

(** The bound of the snap as the script holds it: [np.isclose] compares
    with the double that the literal [1e-3] denotes, slightly above the
    rational [1/1000]. *)
Definition limiar_ajuste : R := B64.to_R (@lit PrimFloat.float B64.B64_num 1e-3).

(** The tolerance, in joules (and in the units of the other quantities),
    within which statements about computed energies are made: far above
    the rounding of a double near [m g y_max], far below any physical
    difference. *)
Definition tolerancia : R := / 1000000000.

Definition t_total : R := 2 * PI.

(** The least integer not below [r]. *)
Definition Rceil (r : R) : Z := (1 - up (- r))%Z.

(** [np.arange(start, stop, step)]: [ceil((stop - start)/step)] values
    [start + i*step]. *)
Definition arange (start stop step : R) : list R :=
  map (fun i : nat => start + INR i * step)
      (seq 0 (Z.to_nat (Rceil ((stop - start) / step)))).

Definition tempos : list R := arange 0 t_total dt.

Definition posicao (t : R) : R := y_max * (1 + cos t) / 2.

Definition posicoes : list R := map posicao tempos.

(** Lines 80-83: the loop that fills the two lists. *)
Definition velocidades : list R :=
  map (fun y => velocidade (calcular_Energias y)) posicoes.

Definition deformacoes : list R :=
  map (fun y => deformacao (calcular_Energias y)) posicoes.

(** ** The figure (lines 89-120) and its update (lines 125-159) *)

(** Python's [max] of a sequence: the first greatest item, found by
    keeping the item seen so far unless the next one is greater;
    [ValueError] ([None]) on an empty sequence. *)
Definition maior (acc b : R) : R := if Rltb acc b then b else acc.

Definition py_max (l : list R) : option R :=
  match l with
  | [] => None
  | a :: l' => Some (fold_left maior l' a)
  end.

(** Python's [min] of a sequence. *)
Definition menor (acc b : R) : R := if Rltb b acc then b else acc.

Definition py_min (l : list R) : option R :=
  match l with
  | [] => None
  | a :: l' => Some (fold_left menor l' a)
  end.

(** [range(start, stop, step)] for a positive step. *)
Definition py_range (start stop step : nat) : list nat :=
  map (fun i : nat => (start + i * step)%nat)
      (seq 0 ((stop - start + step - 1) / step)).

(** Lines 93-94, 101-102, 109-110: the limits of the three line plots. *)
Definition xlim_tempo : R * R := (0, t_total).

Definition ylim_posicao : option (R * R) :=
  match py_max posicoes with
  | Some M => Some (0, M * lit 1.2)
  | None => None
  end.

Definition ylim_velocidade : option (R * R) :=
  match py_min velocidades, py_max velocidades with
  | Some a, Some M => Some (a, M * lit 1.2)
  | _, _ => None
  end.

Definition ylim_deformacao : option (R * R) :=
  match py_max deformacoes with
  | Some M => Some (0, M * lit 1.2)
  | None => None
  end.

(** What [update] writes to: the data of the three lines, the heights of
    the bars, and the vertical limits of the bar chart. *)
Record Figura : Type := mkFigura {
  linha_posicao : list R * list R;
  linha_velocidade : list R * list R;
  linha_deformacao : list R * list R;
  barras : list R;
  ylim_energia : R * R
}.

(** Lines 92, 100, 108, 116-118: empty lines and four bars of height [0];
    the limits the plotting library first gives the bar chart are not the
    script's, and are left as an argument. *)
Definition valores_iniciais : list R := [0; 0; 0; 0].

Definition figura_inicial (ylim0 : R * R) : Figura :=
  mkFigura ([], []) ([], []) ([], []) valores_iniciais ylim0.

(** Lines 150-151: [for bar, energia in zip(barras, energias)] sets the
    height of each bar that has a value; [zip] stops at the shorter
    sequence, and the bars left over keep their heights. *)
Fixpoint set_heights (bars energias : list R) : list R :=
  match bars, energias with
  | _ :: bars', e :: energias' => e :: set_heights bars' energias'
  | _, _ => bars
  end.

(** A call either returns or stops at an [IndexError] / [ValueError], with
    the figure as it is at that point. *)
Inductive Resultado : Type :=
  | Retorna (fig : Figura)
  | Excecao (fig : Figura).

(** Lines 125-154.  The three [set_data] calls come first, with the slices
    [tempos[:frame]] and so on; then [posicoes[frame]], which raises past
    the end. *)
Definition update (frame : nat) (fig : Figura) : Resultado :=
  let fig1 :=
    mkFigura (firstn frame tempos, firstn frame posicoes)
             (firstn frame tempos, firstn frame velocidades)
             (firstn frame tempos, firstn frame deformacoes)
             (barras fig) (ylim_energia fig) in
  match nth_error posicoes frame with
  | None => Excecao fig1
  | Some y =>
      let r := calcular_Energias y in
      let energias := [E_mec r; K_c r; U_g r; U_el r] in
      let fig2 :=
        mkFigura (linha_posicao fig1) (linha_velocidade fig1)
                 (linha_deformacao fig1)
                 (set_heights (barras fig1) energias) (ylim_energia fig1) in
      match py_max energias with
      | None => Excecao fig2
      | Some M =>
          Retorna (mkFigura (linha_posicao fig2) (linha_velocidade fig2)
                            (linha_deformacao fig2) (barras fig2)
                            (0, M * lit 1.2))
      end
  end.

(** Line 159: the frames handed to [update], every tenth sample. *)
Definition frames : list nat := py_range 0 (length tempos) 10.

(** One pass of the animation: [update] on each frame in turn, stopping at
    the first exception. *)
Fixpoint passagem (fs : list nat) (fig : Figura) : Resultado :=
  match fs with
  | [] => Retorna fig
  | f :: fs' =>
      match update f fig with
      | Retorna fig' => passagem fs' fig'
      | Excecao fig' => Excecao fig'
      end
  end.

(** * Properties *)

(** ** Comparisons and constants in the real model *)

Lemma Rltb_true (a b : R) : a < b -> Rltb a b = true.
Proof. unfold Rltb; destruct (Rlt_dec a b); [reflexivity | contradiction]. Qed.

Lemma Rltb_false (a b : R) : ~ a < b -> Rltb a b = false.
Proof. unfold Rltb; destruct (Rlt_dec a b); [contradiction | reflexivity]. Qed.

Lemma Rleb_true (a b : R) : a <= b -> Rleb a b = true.
Proof. unfold Rleb; destruct (Rle_dec a b); [reflexivity | contradiction]. Qed.

Lemma Rleb_false (a b : R) : ~ a <= b -> Rleb a b = false.
Proof. unfold Rleb; destruct (Rle_dec a b); [contradiction | reflexivity]. Qed.

(** Reduces the class operations at the instance of the reals, and the
    numerator and denominator of every literal. *)
Ltac R_lits :=
  repeat match goal with
  | |- context [Qnum ?q] =>
      let n := eval vm_compute in (Qnum q) in change (Qnum q) with n
  | |- context [Qden ?q] =>
      let d := eval vm_compute in (Qden q) in change (Qden q) with d
  end.

Ltac R_ops :=
  cbn [py_int py_add py_sub py_mul py_div py_sqrt py_abs py_lt py_le R_num];
  R_lits.

Lemma m_R : @m R _ = 90.
Proof. reflexivity. Qed.

Lemma g_R : @g R _ = 981 / 100.
Proof. reflexivity. Qed.

Lemma x_max_R : @x_max R _ = / 2.
Proof. unfold x_max, lit; R_ops. lra. Qed.

Lemma y_max_R : @y_max R _ = 1.
Proof. reflexivity. Qed.

Lemma k_R : @k R _ = 70632 / 10.
Proof. unfold k, sq; rewrite m_R, g_R, x_max_R, y_max_R; R_ops. lra. Qed.

Lemma E_t_R : @E_t R _ = 8829 / 10.
Proof. unfold E_t; rewrite m_R, g_R, y_max_R; R_ops. lra. Qed.

(** The snap test of line 46, in the reals: [|y| <= 1e-3]. *)
Lemma isclose_R (y : R) :
  isclose y (lit 0.0) rtol_default (lit 1e-3) = Rleb (Rabs y) (/ 1000).
Proof.
  unfold isclose, rtol_default, lit; R_ops.
  replace (0 / 10) with 0 by lra. rewrite Rabs_R0.
  replace (y - 0) with y by lra.
  replace (1 / 1000 + 1 / 100000 * 0) with (/ 1000) by lra.
  reflexivity.
Qed.

Lemma ajusta_snap (y : R) : Rabs y <= / 1000 -> ajusta y = 0.
Proof.
  intros Hy. unfold ajusta. rewrite isclose_R, Rleb_true by assumption.
  reflexivity.
Qed.

Lemma ajusta_keep (y : R) : / 1000 < Rabs y -> ajusta y = y.
Proof.
  intros Hy. unfold ajusta. rewrite isclose_R, Rleb_false by lra.
  reflexivity.
Qed.

Lemma deformacao_mola_lt (y : R) : y < x_max -> deformacao_mola y = x_max - y.
Proof.
  intros Hy. unfold deformacao_mola; R_ops. rewrite Rltb_true by assumption.
  reflexivity.
Qed.

Lemma deformacao_mola_ge (y : R) : x_max <= y -> deformacao_mola y = 0.
Proof.
  intros Hy. unfold deformacao_mola; R_ops. rewrite Rltb_false by lra.
  reflexivity.
Qed.

(** Unfolding of [calcular_Energias] in the reals, with the deformation and
    the adjusted position named. *)
Lemma calcular_Energias_R (y : R) :
  calcular_Energias y =
  let x := deformacao_mola y in
  let y' := ajusta y in
  let Ug := m * g * y' in
  let Uel := / 2 * k * (x * x) in
  let v :=
    if Rltb x_max y' && Rltb y' y_max then sqrt (2 * (E_t - Ug) / m)
    else if Rltb 0 y' && Rltb y' x_max then sqrt (2 / m * (E_t - Ug - Uel))
    else 0 in
  let K := / 2 * m * (v * v) in
  mkEnergias (K + Ug + Uel) K Ug Uel v x.
Proof.
  unfold calcular_Energias, deformacao_mola, ajusta, E_t, sq, lit.
  R_ops.
  replace (5 / 10) with (/ 2) by lra.
  reflexivity.
Qed.

(** ** The returned fields, one by one *)

Lemma deformacao_R (y : R) :
  deformacao (calcular_Energias y) = deformacao_mola y.
Proof. reflexivity. Qed.

Lemma U_g_R (y : R) : U_g (calcular_Energias y) = m * g * ajusta y.
Proof. reflexivity. Qed.

Lemma U_el_R (y : R) :
  U_el (calcular_Energias y) = / 2 * k * (deformacao_mola y * deformacao_mola y).
Proof. rewrite calcular_Energias_R. reflexivity. Qed.

Lemma K_c_R (y : R) :
  K_c (calcular_Energias y) =
  / 2 * m * (velocidade (calcular_Energias y) * velocidade (calcular_Energias y)).
Proof. rewrite calcular_Energias_R. reflexivity. Qed.

Lemma E_mec_R (y : R) :
  E_mec (calcular_Energias y) =
  K_c (calcular_Energias y) + U_g (calcular_Energias y) + U_el (calcular_Energias y).
Proof. reflexivity. Qed.

(** ** The three regimes of the velocity (lines 55-60) *)

Lemma velocidade_fora_da_mola (y : R) :
  x_max < ajusta y < y_max ->
  velocidade (calcular_Energias y) =
  sqrt (2 * (E_t - U_g (calcular_Energias y)) / m).
Proof.
  intros [H1 H2]. rewrite U_g_R, calcular_Energias_R. cbn [velocidade].
  rewrite (Rltb_true _ _ H1), (Rltb_true _ _ H2). reflexivity.
Qed.

Lemma velocidade_na_mola (y : R) :
  0 < ajusta y < x_max ->
  velocidade (calcular_Energias y) =
  sqrt (2 / m * (E_t - U_g (calcular_Energias y) - U_el (calcular_Energias y))).
Proof.
  intros [H1 H2]. rewrite U_g_R, U_el_R, calcular_Energias_R. cbn [velocidade].
  rewrite (Rltb_false x_max (ajusta y)) by lra.
  rewrite (Rltb_true _ _ H1), (Rltb_true _ _ H2). reflexivity.
Qed.

Lemma velocidade_estacionaria (y : R) :
  ~ x_max < ajusta y < y_max -> ~ 0 < ajusta y < x_max ->
  velocidade (calcular_Energias y) = 0.
Proof.
  intros H1 H2. rewrite calcular_Energias_R. cbn [velocidade].
  unfold Rltb.
  destruct (Rlt_dec x_max (ajusta y)), (Rlt_dec (ajusta y) y_max),
    (Rlt_dec 0 (ajusta y)), (Rlt_dec (ajusta y) x_max);
    cbn [andb]; try reflexivity; exfalso; tauto.
Qed.

Lemma K_c_estacionaria (y : R) :
  velocidade (calcular_Energias y) = 0 -> K_c (calcular_Energias y) = 0.
Proof. intros Hv. rewrite K_c_R, Hv. ring. Qed.

(** C3: the velocity returned by [calcular_Energias] follows three mutually
    exclusive branches on the adjusted position [ajusta y]: strictly between
    [x_max] and [y_max] it is [sqrt (2 (E_t - U_g) / m)]; strictly between
    [0] and [x_max] it is [sqrt (2/m (E_t - U_g - U_el))]; everywhere else,
    in particular at [0], at [x_max] and from [y_max] on, it is [0]. *)
Theorem velocidade_por_regime (y : R) :
  U_g (calcular_Energias y) = m * g * ajusta y /\
  ~ (x_max < ajusta y < y_max /\ 0 < ajusta y < x_max) /\
  (x_max < ajusta y < y_max ->
     velocidade (calcular_Energias y) =
     sqrt (2 * (E_t - U_g (calcular_Energias y)) / m)) /\
  (0 < ajusta y < x_max ->
     velocidade (calcular_Energias y) =
     sqrt (2 / m * (E_t - U_g (calcular_Energias y) - U_el (calcular_Energias y)))) /\
  (~ x_max < ajusta y < y_max -> ~ 0 < ajusta y < x_max ->
     velocidade (calcular_Energias y) = 0) /\
  (ajusta y = 0 \/ ajusta y = x_max \/ y_max <= ajusta y ->
     velocidade (calcular_Energias y) = 0).
Proof.
  split; [apply U_g_R|].
  split; [lra|].
  split; [apply velocidade_fora_da_mola|].
  split; [apply velocidade_na_mola|].
  split; [apply velocidade_estacionaria|].
  intros Hy. apply velocidade_estacionaria; rewrite ?x_max_R, ?y_max_R in *; lra.
Qed.

(** C4: the deformation returned by [calcular_Energias] is [x_max - y] when
    [y < x_max] and [0] otherwise, for the position as passed; so it is [0]
    on [[x_max, y_max]] and [x_max - y >= 0] on [[0, x_max)]. *)
Theorem deformacao_por_posicao (y : R) :
  (y < x_max -> deformacao (calcular_Energias y) = x_max - y) /\
  (~ y < x_max -> deformacao (calcular_Energias y) = 0) /\
  (x_max <= y <= y_max -> deformacao (calcular_Energias y) = 0) /\
  (0 <= y < x_max ->
     deformacao (calcular_Energias y) = x_max - y /\
     0 <= deformacao (calcular_Energias y)).
Proof.
  rewrite deformacao_R. repeat split.
  - apply deformacao_mola_lt.
  - intros Hy. apply deformacao_mola_ge. lra.
  - intros Hy. apply deformacao_mola_ge. lra.
  - apply deformacao_mola_lt. lra.
  - rewrite deformacao_mola_lt; lra.
Qed.

Lemma velocidade_ajustada (y : R) :
  Rabs y <= / 1000 -> velocidade (calcular_Energias y) = 0.
Proof.
  intros Hy. apply velocidade_estacionaria;
    rewrite (ajusta_snap y Hy), ?x_max_R; lra.
Qed.

(** C6: a position within [1e-3] of zero is set to exactly zero before the
    velocity is chosen, so the returned velocity and kinetic energy are [0]. *)
Theorem perto_de_zero (y : R) :
  Rabs y <= / 1000 ->
  ajusta y = 0 /\
  velocidade (calcular_Energias y) = 0 /\
  K_c (calcular_Energias y) = 0.
Proof.
  intros Hy. pose proof (velocidade_ajustada y Hy) as Hv.
  auto using ajusta_snap, K_c_estacionaria.
Qed.

Lemma perto_de_zero_witness :
  Rabs (/ 2000) <= / 1000 /\
  velocidade (calcular_Energias (/ 2000)) = 0.
Proof.
  assert (H : Rabs (/ 2000) <= / 1000) by (rewrite Rabs_pos_eq; lra).
  split; [exact H | exact (proj1 (proj2 (perto_de_zero _ H)))].
Defined.

(** ** The arguments of the square roots and the energy balance *)

Lemma ajusta_cases (y : R) :
  (Rabs y <= / 1000 /\ ajusta y = 0) \/ (/ 1000 < Rabs y /\ ajusta y = y).
Proof.
  destruct (Rle_lt_dec (Rabs y) (/ 1000)) as [Hy | Hy].
  - left. auto using ajusta_snap.
  - right. auto using ajusta_keep.
Qed.

Lemma ajusta_pos (y : R) : 0 < ajusta y -> ajusta y = y /\ / 1000 < y.
Proof.
  intros Hp. destruct (ajusta_cases y) as [[_ Ha] | [Hy Ha]]; [lra|].
  split; [assumption|]. rewrite Ha in Hp. rewrite Rabs_pos_eq in Hy; lra.
Qed.

Lemma radicando_fora_da_mola (y : R) :
  x_max < ajusta y < y_max ->
  0 <= 2 * (E_t - U_g (calcular_Energias y)) / m.
Proof.
  rewrite U_g_R, E_t_R, m_R, g_R, x_max_R, y_max_R. intros Hy.
  apply Rmult_le_pos; lra.
Qed.

(** In contact with the spring the energy left for the motion is
    [m g y (3 - 4 y)], positive below [x_max]. *)
Lemma radicando_na_mola (y : R) :
  0 < ajusta y < x_max ->
  0 <= 2 / m * (E_t - U_g (calcular_Energias y) - U_el (calcular_Energias y)).
Proof.
  intros Hy. destruct (ajusta_pos y (proj1 Hy)) as [Ha Hlo].
  rewrite Ha in Hy.
  rewrite U_g_R, U_el_R, Ha, deformacao_mola_lt by lra.
  rewrite E_t_R, m_R, g_R, k_R, x_max_R in *.
  replace (8829 / 10 - 90 * (981 / 100) * y
           - / 2 * (70632 / 10) * ((/ 2 - y) * (/ 2 - y)))
    with (8829 / 10 * (y * (3 - 4 * y))) by field.
  apply Rmult_le_pos; [lra|].
  apply Rmult_le_pos; [lra|].
  apply Rmult_le_pos; lra.
Qed.

Lemma energia_fora_da_mola (y : R) :
  x_max < ajusta y < y_max -> E_mec (calcular_Energias y) = E_t.
Proof.
  intros Hy. pose proof (radicando_fora_da_mola y Hy) as Hr.
  rewrite E_mec_R, K_c_R, (velocidade_fora_da_mola y Hy), (sqrt_sqrt _ Hr).
  assert (Hx : deformacao_mola y = 0).
  { apply deformacao_mola_ge. destruct (ajusta_cases y) as [[_ Ha] | [_ Ha]];
      rewrite Ha, ?x_max_R in Hy; rewrite ?x_max_R; lra. }
  rewrite U_el_R, Hx, m_R. field.
Qed.

Lemma energia_na_mola (y : R) :
  0 < ajusta y < x_max -> E_mec (calcular_Energias y) = E_t.
Proof.
  intros Hy. pose proof (radicando_na_mola y Hy) as Hr.
  rewrite E_mec_R, K_c_R, (velocidade_na_mola y Hy), (sqrt_sqrt _ Hr).
  rewrite m_R. field.
Qed.

Lemma energia_em_x_max_R :
  0 < x_max < y_max /\
  E_mec (calcular_Energias x_max) = m * g * y_max / 2 /\
  velocidade (calcular_Energias x_max) = 0.
Proof.
  assert (Ha : ajusta (@x_max R _) = x_max).
  { apply ajusta_keep. rewrite x_max_R, Rabs_pos_eq; lra. }
  assert (Hv : velocidade (calcular_Energias (@x_max R _)) = 0).
  { apply velocidade_estacionaria; rewrite Ha; lra. }
  assert (He : E_mec (calcular_Energias (@x_max R _)) = m * g * y_max / 2).
  { rewrite E_mec_R, (K_c_estacionaria _ Hv), U_g_R, U_el_R, Ha.
    rewrite deformacao_mola_ge by lra.
    rewrite m_R, g_R, x_max_R, y_max_R. field. }
  split; [rewrite x_max_R, y_max_R; lra|].
  split; [exact He | exact Hv].
Qed.

(** ** Positions inside the snap tolerance *)

Lemma energias_ajustadas (y : R) :
  0 < y <= / 1000 ->
  deformacao (calcular_Energias y) = x_max - y /\
  U_g (calcular_Energias y) = 0 /\
  velocidade (calcular_Energias y) = 0 /\
  K_c (calcular_Energias y) = 0 /\
  E_mec (calcular_Energias y) = / 2 * k * ((x_max - y) * (x_max - y)).
Proof.
  intros Hy.
  assert (Ha : ajusta y = 0) by (apply ajusta_snap; rewrite Rabs_pos_eq; lra).
  assert (Hx : deformacao_mola y = x_max - y).
  { apply deformacao_mola_lt. rewrite x_max_R. lra. }
  assert (Hv : velocidade (calcular_Energias y) = 0).
  { apply velocidade_estacionaria; rewrite Ha, ?x_max_R; lra. }
  pose proof (K_c_estacionaria y Hv) as HK.
  assert (HU : U_g (calcular_Energias y) = 0) by (rewrite U_g_R, Ha; ring).
  repeat split; try assumption.
  rewrite E_mec_R, HK, HU, U_el_R, Hx. ring.
Qed.

Lemma energia_ajustada_menor (y : R) :
  0 < y <= / 1000 ->
  / 2 * k * ((x_max - y) * (x_max - y)) < m * g * y_max.
Proof.
  intros Hy. rewrite k_R, x_max_R, m_R, g_R, y_max_R.
  assert (Hp : 0 < 35316 / 10 * (y * (1 - y))).
  { apply Rmult_lt_0_compat; [lra|]. apply Rmult_lt_0_compat; lra. }
  lra.
Qed.

(** ** Bounds on the whole domain *)

Lemma velocidade_nao_negativa (y : R) : 0 <= velocidade (calcular_Energias y).
Proof.
  rewrite calcular_Energias_R. cbn [velocidade].
  destruct (Rltb x_max (ajusta y) && Rltb (ajusta y) y_max);
    [apply sqrt_pos|].
  destruct (Rltb 0 (ajusta y) && Rltb (ajusta y) x_max);
    [apply sqrt_pos | lra].
Qed.

Lemma K_c_nao_negativa (y : R) : 0 <= K_c (calcular_Energias y).
Proof.
  rewrite K_c_R, m_R. pose proof (velocidade_nao_negativa y).
  apply Rmult_le_pos; [lra|]. apply Rmult_le_pos; assumption.
Qed.

Lemma U_el_nao_negativa (y : R) : 0 <= U_el (calcular_Energias y).
Proof.
  rewrite U_el_R, k_R. apply Rmult_le_pos; [lra|].
  apply Rle_0_sqr.
Qed.

Lemma ajusta_dominio (y : R) : 0 <= y <= y_max -> 0 <= ajusta y <= y_max.
Proof.
  rewrite y_max_R. intros Hy.
  destruct (ajusta_cases y) as [[_ Ha] | [_ Ha]]; rewrite Ha; lra.
Qed.

Lemma deformacao_nao_negativa (y : R) :
  y <= y_max -> 0 <= deformacao (calcular_Energias y).
Proof.
  intros _. rewrite deformacao_R.
  destruct (Rlt_dec y x_max) as [Hlt | Hge].
  - rewrite deformacao_mola_lt by assumption. lra.
  - rewrite deformacao_mola_ge by lra. lra.
Qed.

Lemma energia_limitada (y : R) :
  0 <= y <= y_max -> E_mec (calcular_Energias y) <= E_t.
Proof.
  intros Hy.
  destruct (Rlt_dec x_max (ajusta y)) as [H1 | H1];
    [destruct (Rlt_dec (ajusta y) y_max) as [H2 | H2]|].
  - rewrite energia_fora_da_mola; [lra | split; assumption].
  - (* top of the trajectory *)
    pose proof (ajusta_dominio y Hy) as Hd.
    assert (Ha : ajusta y = y_max) by lra.
    assert (Hv : velocidade (calcular_Energias y) = 0).
    { apply velocidade_estacionaria; lra. }
    rewrite E_mec_R, (K_c_estacionaria y Hv), U_g_R, U_el_R, Ha.
    rewrite deformacao_mola_ge.
    + rewrite E_t_R, m_R, g_R, y_max_R, k_R. lra.
    + destruct (ajusta_cases y) as [[_ Hz] | [_ Hz]];
        rewrite Hz, ?y_max_R in Ha; rewrite x_max_R; lra.
  - destruct (Rlt_dec 0 (ajusta y)) as [H3 | H3];
      [destruct (Rlt_dec (ajusta y) x_max) as [H4 | H4]|].
    + rewrite energia_na_mola; [lra | split; assumption].
    + (* y = x_max *)
      destruct (ajusta_pos y H3) as [Ha Hlo].
      assert (Hv : velocidade (calcular_Energias y) = 0).
      { apply velocidade_estacionaria; lra. }
      rewrite E_mec_R, (K_c_estacionaria y Hv), U_g_R, U_el_R, Ha.
      rewrite Ha in H1, H4.
      rewrite deformacao_mola_ge by lra.
      rewrite E_t_R, m_R, g_R, k_R. rewrite x_max_R in H1, H4. lra.
    + (* adjusted to zero *)
      pose proof (ajusta_dominio y Hy) as Hd.
      assert (Ha : ajusta y = 0) by lra.
      assert (Hv : velocidade (calcular_Energias y) = 0).
      { apply velocidade_estacionaria; rewrite Ha, ?x_max_R; lra. }
      rewrite E_mec_R, (K_c_estacionaria y Hv), U_g_R, U_el_R, Ha.
      destruct (ajusta_cases y) as [[Hz _] | [Hz Hk]].
      * rewrite Rabs_pos_eq in Hz by lra.
        rewrite deformacao_mola_lt by (rewrite x_max_R; lra).
        rewrite E_t_R, m_R, g_R, k_R, x_max_R.
        assert (0 <= 35316 / 10 * (y * (1 - y))).
        { apply Rmult_le_pos; [lra|]. apply Rmult_le_pos; lra. }
        lra.
      * rewrite Hk in Ha. rewrite Ha, Rabs_R0 in Hz. lra.
Qed.

(** ** No undefined operation on the domain *)

Ltac N_ops :=
  cbn [py_int py_add py_sub py_mul py_div py_sqrt py_abs py_lt py_le NaN_num
       nan_lift2 nan_cmp option_map].

Lemma nan_div_Some (a b : R) : b <> 0 -> nan_div (Some a) (Some b) = Some (a / b).
Proof.
  intros Hb. unfold nan_div. destruct (Req_dec_T b 0); [contradiction | reflexivity].
Qed.

Lemma nan_sqrt_Some (a : R) : 0 <= a -> nan_sqrt (Some a) = Some (sqrt a).
Proof.
  intros Ha. unfold nan_sqrt. destruct (Rlt_dec a 0); [lra | reflexivity].
Qed.

Lemma lit_N (q : Q) : @lit (option R) _ q = Some (lit q).
Proof.
  unfold lit. N_ops. apply nan_div_Some.
  apply Rgt_not_eq, IZR_lt. reflexivity.
Qed.

Lemma m_N : @m (option R) _ = Some m.
Proof. reflexivity. Qed.

Lemma g_N : @g (option R) _ = Some g.
Proof. apply lit_N. Qed.

Lemma x_max_N : @x_max (option R) _ = Some x_max.
Proof. apply lit_N. Qed.

Lemma y_max_N : @y_max (option R) _ = Some y_max.
Proof. reflexivity. Qed.

Lemma k_N : @k (option R) _ = Some k.
Proof.
  unfold k at 1, sq. rewrite m_N, g_N, x_max_N, y_max_N. N_ops.
  apply nan_div_Some. rewrite x_max_R. lra.
Qed.

Lemma deformacao_mola_N (y : R) : deformacao_mola (Some y) = Some (deformacao_mola y).
Proof.
  unfold deformacao_mola. rewrite x_max_N. N_ops. R_ops.
  destruct (Rltb y x_max); reflexivity.
Qed.

Lemma ajusta_N (y : R) : ajusta (Some y) = Some (ajusta y).
Proof.
  unfold ajusta, isclose, rtol_default. rewrite !lit_N. N_ops. R_ops.
  match goal with |- context [Rleb ?a ?b] => destruct (Rleb a b) end; reflexivity.
Qed.

(** The body of [calcular_Energias] with the deformation and the adjusted
    position named, over any instance. *)
Lemma calcular_Energias_eq {T : Type} `{PyNum T} (y : T) :
  calcular_Energias y =
  let x := deformacao_mola y in
  let y' := ajusta y in
  let Ug := (m * g * y')%py in
  let Uel := (lit 0.5 * k * sq x)%py in
  let v :=
    (if (x_max <? y') && (y' <? y_max) then
       py_sqrt (py_int 2 * (m * g * y_max - Ug) / m)
     else if (py_int 0 <? y') && (y' <? x_max) then
       py_sqrt (py_int 2 / m * (m * g * y_max - Ug - Uel))
     else py_int 0)%py in
  let K := (lit 0.5 * m * sq v)%py in
  mkEnergias (K + Ug + Uel)%py K Ug Uel v x.
Proof. reflexivity. Qed.

Lemma calcular_Energias_definida_em_R (y : R) :
  calcular_Energias (Some y) = Energias_map Some (calcular_Energias y).
Proof.
  pose proof (radicando_fora_da_mola y) as Hfora.
  pose proof (radicando_na_mola y) as Hmola.
  rewrite U_g_R in Hfora, Hmola. rewrite U_el_R in Hmola.
  rewrite !calcular_Energias_eq.
  rewrite deformacao_mola_N, ajusta_N, m_N, g_N, x_max_N, y_max_N, k_N, !lit_N.
  unfold sq, Energias_map. cbn zeta. N_ops.
  cbn [E_mec K_c U_g U_el velocidade deformacao].
  cbn [py_int py_add py_sub py_mul py_div py_sqrt py_abs py_lt py_le R_num].
  assert (Hm : @m R _ <> 0) by (rewrite m_R; lra).
  unfold E_t in Hfora, Hmola.
  cbn [py_int py_add py_sub py_mul py_div py_sqrt py_abs py_lt py_le R_num]
    in Hfora, Hmola.
  replace (/ 2) with (@lit R _ 0.5) in Hmola by (unfold lit; R_ops; lra).
  unfold Rltb.
  destruct (Rlt_dec x_max (ajusta y)) as [H1 | H1];
    [destruct (Rlt_dec (ajusta y) y_max) as [H2 | H2]|]; cbn [andb].
  - rewrite (nan_div_Some _ _ Hm), nan_sqrt_Some by (apply Hfora; lra).
    reflexivity.
  - destruct (Rlt_dec 0 (ajusta y)) as [H3 | H3];
      [destruct (Rlt_dec (ajusta y) x_max) as [H4 | H4]|]; cbn [andb];
      try reflexivity.
    lra.
  - destruct (Rlt_dec 0 (ajusta y)) as [H3 | H3];
      [destruct (Rlt_dec (ajusta y) x_max) as [H4 | H4]|]; cbn [andb];
      try reflexivity.
    rewrite (nan_div_Some _ _ Hm). N_ops.
    rewrite nan_sqrt_Some by (apply Hmola; lra).
    reflexivity.
Qed.

Lemma calcular_Energias_definida (y : R) :
  0 <= y <= y_max ->
  calcular_Energias (Some y) = Energias_map Some (calcular_Energias y).
Proof. intros _. apply calcular_Energias_definida_em_R. Qed.

(** C2: [calcular_Energias] is total on [[0, y_max]]: evaluated with an
    undefined value for the square root of a negative number and for a
    division by zero, it returns the six defined numbers of the real model;
    in particular the argument of each square root is nonnegative on the
    branch that takes it. *)
Theorem calcular_Energias_total (y : R) :
  0 <= y <= y_max ->
  calcular_Energias (Some y) = Energias_map Some (calcular_Energias y) /\
  (x_max < ajusta y < y_max ->
     0 <= 2 * (E_t - U_g (calcular_Energias y)) / m) /\
  (0 < ajusta y < x_max ->
     0 <= 2 / m * (E_t - U_g (calcular_Energias y) - U_el (calcular_Energias y))).
Proof.
  intros Hy. split; [apply calcular_Energias_definida; assumption|].
  split; [apply radicando_fora_da_mola | apply radicando_na_mola].
Qed.

Lemma calcular_Energias_total_witness :
  calcular_Energias (Some (/ 4)) = Energias_map Some (calcular_Energias (/ 4)).
Proof.
  apply (calcular_Energias_total (/ 4)). rewrite y_max_R. lra.
Defined.

(** ** The sampled trajectory *)

Lemma PI_entre : 3.14 < PI < 3.15.
Proof.
  pose proof (PI_2_3_7_ineq 1) as H.
  unfold PI_2_3_7_tg, tg_alt, Ratan_seq in H.
  cbn [sum_f_R0 Nat.mul Nat.add pow INR] in H.
  lra.
Qed.

Lemma dt_R : @dt R _ = 5 / 100.
Proof. reflexivity. Qed.

Lemma Rceil_entre (r : R) (n : Z) : IZR n - 1 < r <= IZR n -> Rceil r = n.
Proof.
  intros Hr. unfold Rceil.
  assert (Hu : (1 - n)%Z = up (- r)).
  { apply tech_up; rewrite minus_IZR; lra. }
  rewrite <- Hu. lia.
Qed.

(** Line 72: [len(tempos)] is [ceil(2 pi / 0.05) = 126]. *)
Lemma numero_de_amostras : Rceil ((t_total - 0) / dt) = 126%Z.
Proof.
  apply Rceil_entre. unfold t_total. rewrite dt_R.
  pose proof PI_entre. lra.
Qed.

Lemma tempos_eq : tempos = map (fun i : nat => 0 + INR i * dt) (seq 0 126).
Proof. unfold tempos, arange. rewrite numero_de_amostras. reflexivity. Qed.

Lemma posicoes_length : length posicoes = 126%nat.
Proof.
  unfold posicoes. rewrite tempos_eq, !length_map, length_seq. reflexivity.
Qed.

Lemma posicoes_nth (i : nat) (d : R) :
  (i < 126)%nat -> nth i posicoes d = posicao (IZR (Z.of_nat i) * (5 / 100)).
Proof.
  intros Hi. unfold posicoes. rewrite tempos_eq, map_map.
  rewrite (nth_indep _ d (posicao (0 + INR 0 * dt))) by
    (rewrite length_map, length_seq; assumption).
  rewrite (map_nth (fun i : nat => posicao (0 + INR i * dt)) (seq 0 126) 0%nat i).
  rewrite seq_nth by assumption.
  rewrite dt_R, INR_IZR_INZ. f_equal. cbn [Nat.add]. lra.
Qed.

Lemma posicoes_In (y : R) :
  In y posicoes ->
  exists i : Z, (0 <= i <= 125)%Z /\ y = posicao (IZR i * (5 / 100)).
Proof.
  unfold posicoes. rewrite tempos_eq, map_map. intros Hin.
  apply in_map_iff in Hin. destruct Hin as (i & Hy & Hi).
  apply in_seq in Hi. exists (Z.of_nat i). split; [lia|].
  rewrite <- Hy, dt_R, INR_IZR_INZ. f_equal. lra.
Qed.

Lemma posicao_R (t : R) : posicao t = (1 + cos t) / 2.
Proof. unfold posicao. rewrite y_max_R. lra. Qed.

Lemma cos_2PI_menos (t : R) : cos (2 * PI - t) = cos t.
Proof.
  replace (2 * PI - t) with (- t + 2 * INR 1 * PI) by (cbn [INR]; lra).
  rewrite cos_period. apply cos_neg.
Qed.

(** Among the sampled instants, [3.15] is the one where the cosine is least. *)
Lemma cos_amostra_minima (i : Z) :
  (0 <= i <= 125)%Z -> cos (315 / 100) <= cos (IZR i * (5 / 100)).
Proof.
  intros Hi. pose proof PI_entre as HPI.
  destruct (Z_le_gt_dec i 62) as [Hlo | Hhi].
  - assert (Ht : 0 <= IZR i * (5 / 100) <= 31 / 10).
    { assert (0 <= IZR i <= 62) by (split; apply IZR_le; lia). lra. }
    apply Rle_trans with (cos (31 / 10)).
    + rewrite <- (cos_2PI_menos (315 / 100)).
      apply cos_decr_1; lra.
    + apply cos_decr_1; lra.
  - assert (Ht : 315 / 100 <= IZR i * (5 / 100) <= 625 / 100).
    { assert (63 <= IZR i <= 125) by (split; apply IZR_le; lia). lra. }
    apply cos_incr_1; lra.
Qed.

Lemma posicao_minima_entre : 0 < posicao (315 / 100) < / 1000.
Proof.
  pose proof PI_entre as HPI. rewrite posicao_R.
  replace (315 / 100) with (2 * (1575 / 1000)) by lra.
  rewrite cos_2a_cos.
  set (c := cos (1575 / 1000)).
  assert (Hc : c = - sin (1575 / 1000 - PI / 2)).
  { unfold c. rewrite <- (sin_shift (1575 / 1000)).
    rewrite <- sin_neg. f_equal. lra. }
  assert (Hs : 0 < sin (1575 / 1000 - PI / 2) < 5 / 1000).
  { split.
    - apply sin_gt_0; lra.
    - apply Rlt_trans with (1575 / 1000 - PI / 2); [apply sin_lt_x|]; lra. }
  set (s := sin (1575 / 1000 - PI / 2)) in *.
  assert (Hss : 0 < s * s < 5 / 1000 * (5 / 1000)).
  { split; [apply Rmult_lt_0_compat; lra|].
    apply Rmult_le_0_lt_compat; lra. }
  replace ((1 + (2 * c * c - 1)) / 2) with (s * s) by (rewrite Hc; lra).
  lra.
Qed.

Lemma posicao_final_entre : 1 - / 1000 < posicao (625 / 100) < 1.
Proof.
  pose proof PI_entre as HPI. rewrite posicao_R.
  replace (625 / 100) with (2 * (3125 / 1000)) by lra.
  rewrite cos_2a_sin.
  assert (Hs : 0 < sin (3125 / 1000) < 25 / 1000).
  { split.
    - apply sin_gt_0; lra.
    - rewrite <- sin_PI_x.
      apply Rlt_trans with (PI - 3125 / 1000); [apply sin_lt_x|]; lra. }
  set (s := sin (3125 / 1000)) in *.
  assert (Hss : 0 < s * s < 25 / 1000 * (25 / 1000)).
  { split; [apply Rmult_lt_0_compat; lra|].
    apply Rmult_le_0_lt_compat; lra. }
  lra.
Qed.

Lemma tempos_length : length tempos = 126%nat.
Proof. rewrite tempos_eq, length_map, length_seq. reflexivity. Qed.

Lemma tempos_nth (i : nat) (d : R) :
  (i < 126)%nat -> nth i tempos d = IZR (Z.of_nat i) * (5 / 100).
Proof.
  intros Hi. rewrite tempos_eq.
  rewrite (nth_indep _ d (0 + INR 0 * dt)) by
    (rewrite length_map, length_seq; assumption).
  rewrite (map_nth (fun i : nat => 0 + INR i * dt) (seq 0 126) 0%nat i).
  rewrite seq_nth by assumption.
  rewrite dt_R, INR_IZR_INZ. cbn [Nat.add]. lra.
Qed.

Lemma posicoes_entre (y : R) :
  In y posicoes -> posicao (315 / 100) <= y <= y_max.
Proof.
  intros Hin. apply posicoes_In in Hin. destruct Hin as (i & Hi & ->).
  rewrite !posicao_R, y_max_R.
  pose proof (cos_amostra_minima i Hi).
  pose proof (COS_bound (IZR i * (5 / 100))) as [_ Hc].
  lra.
Qed.

(** Lines 80-83: the two precomputed series have one entry per sample;
    velocities are nonnegative, deformations lie in [[0, x_max]], and at the
    sample nearest the bottom the snap makes the velocity exactly [0]. *)
Lemma series_precalculadas :
  length velocidades = 126%nat /\
  length deformacoes = 126%nat /\
  (forall v : R, In v velocidades -> 0 <= v) /\
  (forall x : R, In x deformacoes -> 0 <= x <= x_max) /\
  nth 63 velocidades 0 = 0.
Proof.
  unfold velocidades, deformacoes.
  rewrite !length_map, posicoes_length.
  split; [reflexivity|]. split; [reflexivity|].
  split; [|split].
  - intros v Hv. apply in_map_iff in Hv. destruct Hv as (y & <- & _).
    apply velocidade_nao_negativa.
  - intros x Hx. apply in_map_iff in Hx. destruct Hx as (y & <- & Hy).
    apply posicoes_entre in Hy. pose proof posicao_minima_entre as Hmin.
    rewrite deformacao_R. rewrite x_max_R.
    destruct (Rlt_dec y x_max) as [Hlt | Hge].
    + rewrite deformacao_mola_lt by assumption. rewrite x_max_R in *. lra.
    + rewrite deformacao_mola_ge by lra. lra.
  - rewrite (nth_indep _ 0 (velocidade (calcular_Energias 0))) by
      (rewrite length_map, posicoes_length; lia).
    rewrite (map_nth (fun y => velocidade (calcular_Energias y)) posicoes 0 63).
    rewrite posicoes_nth by lia. cbn [Z.of_nat Pos.of_succ_nat Pos.succ].
    replace (63 * (5 / 100)) with (315 / 100) by lra.
    pose proof posicao_minima_entre as Hmin.
    apply velocidade_ajustada. rewrite Rabs_pos_eq; lra.
Qed.

(** C5 as stated fails: the sample at the middle of the sequence is not [0]
    (no sample is), and the last sample is not [y_max]. *)
Lemma trajetoria_nao_atinge_os_extremos :
  nth (length posicoes / 2) posicoes 0 <> 0 /\
  nth (length posicoes - 1) posicoes 0 <> y_max /\
  ~ In 0 posicoes.
Proof.
  rewrite posicoes_length. cbn [Nat.div Nat.divmod Nat.sub fst].
  rewrite !posicoes_nth by lia. cbn [Z.of_nat Pos.of_succ_nat Pos.succ].
  replace (63 * (5 / 100)) with (315 / 100) by lra.
  replace (125 * (5 / 100)) with (625 / 100) by lra.
  pose proof posicao_minima_entre. pose proof posicao_final_entre.
  rewrite y_max_R.
  split; [lra|]. split; [lra|].
  intros Hin. apply posicoes_entre in Hin. lra.
Qed.

(** C5 (amended): the trajectory has exactly [ceil(2 pi / 0.05) = 126]
    samples, taken at [t = 0.05 i]; it starts at exactly [y_max] at [t = 0];
    its least sample is the one in the middle of the sequence, at [t = 3.15],
    which is strictly positive and below [1e-3]; and its last sample, at
    [t = 6.25], is strictly below [y_max] and within [1e-3] of it. *)
Theorem trajetoria_amostrada :
  Z.of_nat (length posicoes) = Rceil (2 * PI / 0.05) /\
  Rceil (2 * PI / 0.05) = 126%Z /\
  length tempos = 126%nat /\
  length posicoes = 126%nat /\
  nth 0 tempos 0 = 0 /\
  nth 0 posicoes 0 = y_max /\
  nth (length posicoes / 2) tempos 0 = 315 / 100 /\
  0 < nth (length posicoes / 2) posicoes 0 < / 1000 /\
  (forall y : R,
     In y posicoes -> nth (length posicoes / 2) posicoes 0 <= y <= y_max) /\
  nth (length posicoes - 1) tempos 0 = 625 / 100 /\
  y_max - / 1000 < nth (length posicoes - 1) posicoes 0 < y_max.
Proof.
  rewrite posicoes_length. cbn [Nat.div Nat.divmod Nat.sub fst].
  rewrite !posicoes_nth, !tempos_nth by lia.
  cbn [Z.of_nat Pos.of_succ_nat Pos.succ].
  replace (63 * (5 / 100)) with (315 / 100) by lra.
  replace (125 * (5 / 100)) with (625 / 100) by lra.
  replace (0 * (5 / 100)) with 0 by lra.
  assert (Hn : Rceil (2 * PI / 0.05) = 126%Z).
  { rewrite <- numero_de_amostras. unfold t_total. rewrite dt_R.
    f_equal. lra. }
  rewrite Hn.
  split; [reflexivity|].
  split; [reflexivity|].
  split; [exact tempos_length|].
  split; [reflexivity|].
  split; [reflexivity|].
  split; [rewrite posicao_R, cos_0, y_max_R; lra|].
  split; [reflexivity|].
  split; [exact posicao_minima_entre|].
  split; [exact posicoes_entre|].
  split; [reflexivity|].
  rewrite y_max_R. exact posicao_final_entre.
Qed.

(** ** The turning points, in the real model *)

Lemma energias_no_topo :
  U_g (calcular_Energias 1) = 8829 / 10 /\
  U_el (calcular_Energias 1) = 0 /\
  velocidade (calcular_Energias 1) = 0 /\
  K_c (calcular_Energias 1) = 0 /\
  E_mec (calcular_Energias 1) = 8829 / 10.
Proof.
  assert (Ha : ajusta 1 = 1) by (apply ajusta_keep; rewrite Rabs_R1; lra).
  assert (Hx : deformacao_mola 1 = 0).
  { apply deformacao_mola_ge. rewrite x_max_R. lra. }
  assert (Hv : velocidade (calcular_Energias 1) = 0).
  { apply velocidade_estacionaria; rewrite Ha, ?x_max_R, ?y_max_R; lra. }
  pose proof (K_c_estacionaria 1 Hv) as HK.
  assert (HU : U_g (calcular_Energias 1) = 8829 / 10).
  { rewrite U_g_R, Ha, m_R, g_R. lra. }
  assert (HE : U_el (calcular_Energias 1) = 0) by (rewrite U_el_R, Hx; ring).
  repeat split; try assumption.
  rewrite E_mec_R, HK, HU, HE. lra.
Qed.

Lemma energias_no_fundo :
  deformacao (calcular_Energias 0) = / 2 /\
  U_el (calcular_Energias 0) = / 2 * (70632 / 10) * (/ 4) /\
  U_el (calcular_Energias 0) = 8829 / 10 /\
  U_g (calcular_Energias 0) = 0 /\
  velocidade (calcular_Energias 0) = 0 /\
  K_c (calcular_Energias 0) = 0 /\
  E_mec (calcular_Energias 0) = 8829 / 10.
Proof.
  assert (Ha : ajusta 0 = 0) by (apply ajusta_snap; rewrite Rabs_R0; lra).
  assert (Hx : deformacao_mola 0 = / 2).
  { rewrite deformacao_mola_lt; rewrite x_max_R; lra. }
  assert (Hv : velocidade (calcular_Energias 0) = 0).
  { apply velocidade_estacionaria; rewrite Ha, ?x_max_R, ?y_max_R; lra. }
  pose proof (K_c_estacionaria 0 Hv) as HK.
  assert (HU : U_g (calcular_Energias 0) = 0) by (rewrite U_g_R, Ha; ring).
  assert (HE : U_el (calcular_Energias 0) = 8829 / 10).
  { rewrite U_el_R, Hx, k_R. lra. }
  rewrite deformacao_R, Hx.
  repeat split; try assumption; try lra.
  rewrite E_mec_R, HK, HU, HE. lra.
Qed.

(** ** The code on binary64 doubles

    The same definitions evaluated on the numbers the script runs on. *)

Module Cenarios.

Import PrimFloat.
Import B64.
Set Warnings "-inexact-float".

(** Each decimal literal of the source, built by [lit], is the double that
    the literal denotes. *)
Lemma literals :
  @g float _ = 9.81%float /\
  @x_max float _ = 0.5%float /\
  @dt float _ = 0.05%float /\
  @lit float _ 0.0 = 0%float /\
  @lit float _ 1e-3 = 1e-3%float /\
  @rtol_default float _ = 1e-05%float.
Proof. repeat split; vm_compute; reflexivity. Qed.

(** The double computed for [k], one unit in the last place above the
    double nearest to [7063.2]. *)
Lemma k_b64 : @k float _ = 0x1.b973333333334p+12%float.
Proof. vm_compute. reflexivity. Qed.

Lemma E_t_b64 : @E_t float _ = 0x1.b973333333334p+9%float.
Proof. vm_compute. reflexivity. Qed.

Lemma topo_b64 :
  calcular_Energias 1%float =
  mkEnergias E_t 0%float E_t 0%float 0%float 0%float.
Proof. vm_compute. reflexivity. Qed.

Lemma fundo_b64 :
  calcular_Energias 0%float =
  mkEnergias E_t 0%float 0%float E_t 0%float 0.5%float.
Proof. vm_compute. reflexivity. Qed.

(** At [y = x_max] the double computed for the total is [441.45...], half
    of [E_t]. *)
Lemma x_max_b64 :
  calcular_Energias (@x_max float _) =
  mkEnergias (E_t / 2)%float 0%float (E_t / 2)%float 0%float 0%float 0%float.
Proof. vm_compute. reflexivity. Qed.

(** Inside the two square-root branches the computed total is [E_t], here
    to the last bit. *)
Lemma ramos_b64 :
  E_mec (calcular_Energias 0.25%float) = E_t /\
  E_mec (calcular_Energias 0.75%float) = E_t.
Proof. split; vm_compute; reflexivity. Qed.

(** The snap of line 46 on doubles: whenever the test succeeds, whatever
    the double, the velocity and the kinetic energy are [+0]. *)
Lemma perto_de_zero_b64 (y : float) :
  isclose y (lit 0.0) rtol_default (lit 1e-3) = true ->
  velocidade (calcular_Energias y) = 0%float /\
  K_c (calcular_Energias y) = 0%float.
Proof.
  intros Hy. rewrite calcular_Energias_eq. unfold ajusta. rewrite Hy.
  cbn zeta. cbn [velocidade K_c]. split; vm_compute; reflexivity.
Qed.

(** Inside the snap tolerance, at [y = 0.0005]: the deformation is
    [x_max - y], the potential, velocity and kinetic energy are [+0], and the
    computed total is below [E_t]. *)
Lemma ajustada_b64 :
  deformacao (calcular_Energias 0.0005%float) = (x_max - 0.0005)%float /\
  U_g (calcular_Energias 0.0005%float) = 0%float /\
  velocidade (calcular_Energias 0.0005%float) = 0%float /\
  K_c (calcular_Energias 0.0005%float) = 0%float /\
  (E_mec (calcular_Energias 0.0005%float) <? E_t)%float = true.
Proof. repeat split; vm_compute; reflexivity. Qed.

(** Rounding on doubles: for a position far below the spacing of the doubles
    near [x_max], here [1e-20], the subtraction [x_max - y] returns [x_max]
    and the computed total is [E_t]; statements about the deformation and
    the total inside the snap are made for positions from [1e-12] up. *)
Lemma ajustada_minuscula_b64 :
  deformacao (calcular_Energias 1e-20%float) = x_max /\
  E_mec (calcular_Energias 1e-20%float) = E_t.
Proof. split; vm_compute; reflexivity. Qed.

(** The deformation of lines 40-43 on doubles, whatever the double. *)
Lemma deformacao_b64 (y : float) :
  deformacao (calcular_Energias y) =
  if (y <? 0.5)%float then (0.5 - y)%float else 0%float.
Proof. reflexivity. Qed.

(** C1 as stated fails at [y = x_max], strictly between [0] and [y_max]:
    the velocity is [0] there and the reported total is only half of
    [m g y_max]; and it fails inside the snap tolerance, at [y = 0.0005],
    where the total is below [m g y_max].  Both hold in real arithmetic and
    on doubles, where the total at [x_max] is more than [441] below [E_t]. *)
Lemma energia_nao_conservada :
  (0 < x_max < y_max /\
   E_mec (calcular_Energias x_max) = m * g * y_max / 2 /\
   E_mec (calcular_Energias x_max) <> m * g * y_max)%R /\
  (0 < / 2000 < y_max /\
   E_mec (calcular_Energias (/ 2000)) < m * g * y_max)%R /\
  E_mec (calcular_Energias (@x_max float _)) = (E_t / 2)%float /\
  (E_mec (calcular_Energias (@x_max float _)) + 441 <? E_t)%float = true /\
  (E_mec (calcular_Energias 0.0005%float) + 1 <? E_t)%float = true.
Proof.
  destruct energia_em_x_max_R as (Hd & He & _).
  split.
  { split; [exact Hd|]. split; [exact He|].
    rewrite He, m_R, g_R, y_max_R. lra. }
  split.
  { assert (Hy : (0 < / 2000 <= / 1000)%R) by lra.
    destruct (energias_ajustadas _ Hy) as (_ & _ & _ & _ & HE).
    pose proof (energia_ajustada_menor _ Hy) as Hlt.
    rewrite HE, y_max_R. split; [lra | rewrite y_max_R in Hlt; exact Hlt]. }
  repeat split; vm_compute; reflexivity.
Qed.

(** C7: the spring constant is the constant [k = 2 m g y_max / x_max^2];
    with the constants of the script its value is [7063.2], exactly in real
    arithmetic and to within [1e-11] as the double the script computes. *)
Theorem constante_elastica :
  (@k R _ = 2 * m * g * y_max / (x_max * x_max))%R /\
  (@k R _ = 7063.2)%R /\
  (abs (@k float _ - 7063.2) <=? 1e-11)%float = true.
Proof.
  split; [reflexivity|].
  split; [rewrite k_R; lra|].
  vm_compute. reflexivity.
Qed.

(** C8: at the top, [calcular_Energias 1] returns [U_g = 882.9], [U_el = 0],
    [v = 0], [K = 0] and the total [882.9]; at the bottom,
    [calcular_Energias 0] returns the deformation [0.5],
    [U_el = 7063.2 * 0.25 / 2 = 882.9], [U_g = 0], [v = 0], [K = 0] and the
    total [882.9] -- exactly in real arithmetic; on doubles the zeros are
    exact and the three values [882.9] are the double of [E_t], within
    [1e-12] of [882.9]. *)
Theorem pontos_de_retorno :
  (U_g (calcular_Energias 1) = 882.9 /\
   U_el (calcular_Energias 1) = 0 /\
   velocidade (calcular_Energias 1) = 0 /\
   K_c (calcular_Energias 1) = 0 /\
   E_mec (calcular_Energias 1) = 882.9)%R /\
  (deformacao (calcular_Energias 0) = 0.5 /\
   U_el (calcular_Energias 0) = / 2 * 7063.2 * 0.25 /\
   U_el (calcular_Energias 0) = 882.9 /\
   U_g (calcular_Energias 0) = 0 /\
   velocidade (calcular_Energias 0) = 0 /\
   K_c (calcular_Energias 0) = 0 /\
   E_mec (calcular_Energias 0) = 882.9)%R /\
  calcular_Energias 1%float =
    mkEnergias E_t 0%float E_t 0%float 0%float 0%float /\
  calcular_Energias 0%float =
    mkEnergias E_t 0%float 0%float E_t 0%float 0.5%float /\
  (abs (@E_t float _ - 882.9) <=? 1e-12)%float = true.
Proof.
  destruct energias_no_topo as (T1 & T2 & T3 & T4 & T5).
  destruct energias_no_fundo as (F1 & F2 & F3 & F4 & F5 & F6 & F7).
  split; [rewrite T1, T2, T3, T4, T5; repeat split; lra|].
  split; [rewrite F1, F3, F4, F5, F6, F7; repeat split; lra|].
  split; [exact topo_b64|].
  split; [exact fundo_b64|].
  vm_compute. reflexivity.
Qed.

End Cenarios.

(** * Further properties of the model *)

(** ** The velocity as a function of the position *)

Lemma ajusta_acima (y : R) : / 1000 < y -> ajusta y = y.
Proof. intros Hy. apply ajusta_keep. rewrite Rabs_pos_eq; lra. Qed.

Lemma velocidade_quadrado_na_mola (y : R) :
  / 1000 < y < x_max ->
  velocidade (calcular_Energias y) * velocidade (calcular_Energias y) =
  2 * g * y * (3 - 4 * y).
Proof.
  intros Hy. pose proof (ajusta_acima y (proj1 Hy)) as Ha.
  assert (Hb : 0 < ajusta y < x_max) by (rewrite Ha; lra).
  rewrite (velocidade_na_mola y Hb), (sqrt_sqrt _ (radicando_na_mola y Hb)).
  rewrite U_g_R, U_el_R, Ha, deformacao_mola_lt by lra.
  rewrite E_t_R, m_R, g_R, k_R, x_max_R. field.
Qed.

Lemma velocidade_quadrado_fora_da_mola (y : R) :
  x_max < y < y_max ->
  velocidade (calcular_Energias y) * velocidade (calcular_Energias y) =
  2 * g * (y_max - y).
Proof.
  intros Hy.
  assert (Ha : ajusta y = y) by (apply ajusta_acima; rewrite x_max_R in Hy; lra).
  assert (Hb : x_max < ajusta y < y_max) by (rewrite Ha; lra).
  rewrite (velocidade_fora_da_mola y Hb),
    (sqrt_sqrt _ (radicando_fora_da_mola y Hb)).
  rewrite U_g_R, Ha, E_t_R, m_R, g_R, y_max_R. field.
Qed.

Lemma quadrado_positivo (v : R) : 0 <= v -> 0 < v * v -> 0 < v.
Proof.
  intros Hv Hvv. destruct (Req_dec v 0) as [-> | Hne]; [|lra].
  rewrite Rmult_0_l in Hvv. lra.
Qed.

Lemma velocidade_positiva (y : R) :
  / 1000 < y < y_max -> y <> x_max -> 0 < velocidade (calcular_Energias y).
Proof.
  intros Hy Hne. apply quadrado_positivo; [apply velocidade_nao_negativa|].
  destruct (Rlt_dec y x_max) as [Hlt | Hge].
  - rewrite velocidade_quadrado_na_mola by lra.
    rewrite g_R. rewrite x_max_R in Hlt.
    apply Rmult_lt_0_compat; [apply Rmult_lt_0_compat|]; lra.
  - rewrite velocidade_quadrado_fora_da_mola by lra.
    rewrite g_R. apply Rmult_lt_0_compat; lra.
Qed.

Lemma velocidade_nula_abaixo (y : R) :
  y <= / 1000 -> velocidade (calcular_Energias y) = 0.
Proof.
  intros Hy. destruct (ajusta_cases y) as [[_ Ha] | [Hk Ha]];
    apply velocidade_estacionaria; rewrite Ha, ?x_max_R; try lra.
  - intros [H0 _]. rewrite Rabs_pos_eq in Hk; lra.
Qed.

Lemma velocidade_nula_acima (y : R) :
  y_max <= y -> velocidade (calcular_Energias y) = 0.
Proof.
  intros Hy. rewrite y_max_R in Hy.
  assert (Ha : ajusta y = y) by (apply ajusta_acima; lra).
  apply velocidade_estacionaria; rewrite Ha, ?x_max_R, ?y_max_R; lra.
Qed.

Lemma velocidade_nula_em_x_max (y : R) :
  y = x_max -> velocidade (calcular_Energias y) = 0.
Proof.
  intros ->. destruct energia_em_x_max_R as (_ & _ & Hv). exact Hv.
Qed.

Lemma velocidade_nula_onde (y : R) :
  velocidade (calcular_Energias y) = 0 <->
  y <= / 1000 \/ y = x_max \/ y_max <= y.
Proof.
  split.
  - intros Hv.
    destruct (Rle_lt_dec y (/ 1000)) as [Hlo | Hlo]; [left; assumption|].
    destruct (Rle_lt_dec y_max y) as [Hhi | Hhi]; [right; right; assumption|].
    destruct (Req_dec y x_max) as [He | Hne]; [right; left; assumption|].
    pose proof (velocidade_positiva y (conj Hlo Hhi) Hne). lra.
  - intros [Hy | [Hy | Hy]];
      auto using velocidade_nula_abaixo, velocidade_nula_em_x_max,
                 velocidade_nula_acima.
Qed.

Lemma K_c_na_mola (z : R) :
  / 1000 < z < x_max -> K_c (calcular_Energias z) = m * g * z * (3 - 4 * z).
Proof.
  intros Hz. rewrite K_c_R, Rmult_assoc, velocidade_quadrado_na_mola
    by assumption. rewrite m_R, g_R. field.
Qed.

Lemma K_c_limitada (y : R) :
  K_c (calcular_Energias y) <= 9 / 16 * (m * g * y_max).
Proof.
  pose proof K_c_na_mola as HK.
  destruct (Rle_lt_dec y (/ 1000)) as [Hlo | Hlo].
    { rewrite (K_c_estacionaria y (velocidade_nula_abaixo y Hlo)).
      rewrite m_R, g_R, y_max_R. lra. }
    destruct (Rle_lt_dec y_max y) as [Hhi | Hhi].
    { rewrite (K_c_estacionaria y (velocidade_nula_acima y Hhi)).
      rewrite m_R, g_R, y_max_R. lra. }
    destruct (Rtotal_order y x_max) as [Hlt | [He | Hgt]].
    + rewrite HK by lra. rewrite m_R, g_R, y_max_R.
      pose proof (Rle_0_sqr (y - 3 / 8)) as Hs. unfold Rsqr in Hs. lra.
    + rewrite (K_c_estacionaria y (velocidade_nula_em_x_max y He)).
      rewrite m_R, g_R, y_max_R. lra.
    + rewrite K_c_R, Rmult_assoc, velocidade_quadrado_fora_da_mola by lra.
      rewrite m_R, g_R, y_max_R. rewrite x_max_R in Hgt. lra.
Qed.

(** ** Outside the domain *)

Lemma energia_acima_do_topo (y : R) :
  y_max < y -> m * g * y_max < E_mec (calcular_Energias y).
Proof.
  intros Hy. rewrite y_max_R in Hy.
  pose proof (velocidade_nula_acima y) as Hv. rewrite y_max_R in Hv.
  rewrite E_mec_R, (K_c_estacionaria y (Hv (Rlt_le _ _ Hy))), U_g_R, U_el_R.
  rewrite ajusta_acima by lra.
  rewrite deformacao_mola_ge by (rewrite x_max_R; lra).
  rewrite m_R, g_R, y_max_R, k_R. lra.
Qed.

Lemma energia_abaixo_do_fundo (y : R) :
  y < 0 -> m * g * y_max < E_mec (calcular_Energias y).
Proof.
  intros Hy.
  assert (Hv : velocidade (calcular_Energias y) = 0)
    by (apply velocidade_nula_abaixo; lra).
  rewrite E_mec_R, (K_c_estacionaria y Hv), U_g_R, U_el_R.
  rewrite deformacao_mola_lt by (rewrite x_max_R; lra).
  rewrite m_R, g_R, y_max_R, k_R, x_max_R.
  destruct (ajusta_cases y) as [[_ Ha] | [_ Ha]]; rewrite Ha.
  - assert (H2 : 0 < (- y) * (1 - y)) by (apply Rmult_lt_0_compat; lra). lra.
  - assert (H2 : 0 < (- y) * (3 - 4 * y)) by (apply Rmult_lt_0_compat; lra). lra.
Qed.

(** X6: for every real position the returned deformation is
    [max 0 (x_max - y)]: never negative, and never increasing with the
    position. *)
Theorem deformacao_monotona (y : R) :
  deformacao (calcular_Energias y) = Rmax 0 (x_max - y) /\
  0 <= deformacao (calcular_Energias y) /\
  (forall y' : R, y <= y' ->
     deformacao (calcular_Energias y') <= deformacao (calcular_Energias y)).
Proof.
  assert (Hd : forall z, deformacao (calcular_Energias z) = Rmax 0 (x_max - z)).
  { intros z. rewrite deformacao_R.
    destruct (Rlt_dec z x_max) as [Hlt | Hge].
    - rewrite deformacao_mola_lt by assumption. rewrite Rmax_right; lra.
    - rewrite deformacao_mola_ge by lra. rewrite Rmax_left; lra. }
  split; [apply Hd|]. split.
  - rewrite Hd. apply Rmax_l.
  - intros y' Hy. rewrite !Hd.
    apply Rmax_lub; [apply Rmax_l|].
    apply Rle_trans with (x_max - y); [lra | apply Rmax_r].
Qed.

(** ** The time vector *)

Lemma Rceil_spec (r : R) : IZR (Rceil r) - 1 < r <= IZR (Rceil r).
Proof.
  unfold Rceil. rewrite minus_IZR. destruct (archimed (- r)) as [H1 H2]. lra.
Qed.

Lemma arange_In (start stop step t : R) :
  In t (arange start stop step) ->
  exists i : nat,
    t = start + INR i * step /\ INR i < IZR (Rceil ((stop - start) / step)).
Proof.
  unfold arange. intros Hin. apply in_map_iff in Hin.
  destruct Hin as (i & <- & Hi). apply in_seq in Hi.
  exists i. split; [reflexivity|].
  rewrite INR_IZR_INZ. apply IZR_lt. lia.
Qed.

(** ** The sampled positions *)

Lemma sin_cubica (x : R) : 0 <= x <= 1 -> x - x * x * x / 6 <= sin x.
Proof.
  intros Hx.
  assert (Hpi : x <= PI) by (pose proof PI_entre; lra).
  destruct (SIN x (proj1 Hx) Hpi) as [Hlb _].
  unfold sin_lb, sin_approx, sin_term in Hlb.
  cbn [sum_f_R0 Nat.mul Nat.add pow] in Hlb.
  rewrite !INR_IZR_INZ in Hlb.
  change (Z.of_nat (fact 1)) with 1%Z in Hlb.
  change (Z.of_nat (fact 3)) with 6%Z in Hlb.
  change (Z.of_nat (fact 5)) with 120%Z in Hlb.
  change (Z.of_nat (fact 7)) with 5040%Z in Hlb.
  assert (H2 : 0 <= x * x <= 1) by nra.
  assert (H5 : 0 <= x * x * x * x * x) by (repeat apply Rmult_le_pos; lra).
  assert (H7 : x * x * x * x * x * (x * x) <= x * x * x * x * x * 1)
    by (apply Rmult_le_compat_l; lra).
  lra.
Qed.

(** The position is the squared sine of half the distance to [PI]. *)
Lemma posicao_seno (t : R) :
  posicao t = sin ((PI - t) / 2) * sin ((PI - t) / 2).
Proof.
  rewrite posicao_R. replace t with (2 * (t / 2)) at 1 by lra.
  rewrite cos_2a_cos.
  replace (cos (t / 2)) with (sin ((PI - t) / 2)).
  - lra.
  - rewrite <- cos_shift. f_equal. lra.
Qed.

Lemma seno_minimo (d : R) : 45 / 1000 <= d <= PI / 2 -> 4 / 100 < sin d.
Proof.
  intros Hd. pose proof PI_entre as HPI.
  apply Rlt_le_trans with (sin (45 / 1000)).
  - pose proof (sin_cubica (45 / 1000)). lra.
  - apply sin_incr_1; lra.
Qed.

Lemma posicao_acima_do_ajuste (t : R) :
  0 <= t <= 305 / 100 \/ 325 / 100 <= t <= 625 / 100 -> / 1000 < posicao t.
Proof.
  intros Ht. pose proof PI_entre as HPI. rewrite posicao_seno.
  assert (Hs : 4 / 100 < sin ((PI - t) / 2) \/ 4 / 100 < - sin ((PI - t) / 2)).
  { destruct Ht as [Ht | Ht].
    - left. apply seno_minimo. lra.
    - right. rewrite <- sin_neg. apply seno_minimo. lra. }
  destruct Hs as [Hs | Hs]; nra.
Qed.

Lemma posicao_dentro_do_ajuste (t : R) :
  31 / 10 <= t <= 32 / 10 -> 0 <= posicao t < / 1000.
Proof.
  intros Ht. pose proof PI_entre as HPI. rewrite posicao_seno.
  set (d := (PI - t) / 2).
  assert (Hd : - (3 / 100) < d < 3 / 100) by (unfold d; lra).
  assert (Hs : - (3 / 100) < sin d < 3 / 100).
  { destruct (Rtotal_order d 0) as [Hn | [-> | Hp]].
    - assert (0 < sin (- d) < - d).
      { split; [apply sin_gt_0 | apply sin_lt_x]; lra. }
      rewrite sin_neg in *. lra.
    - rewrite sin_0. lra.
    - assert (0 < sin d < d).
      { split; [apply sin_gt_0 | apply sin_lt_x]; lra. }
      lra. }
  split; [apply Rle_0_sqr | nra].
Qed.

Lemma posicao_abaixo_do_topo (t : R) : 0 < t < 2 * PI -> posicao t < 1.
Proof.
  intros Ht. rewrite posicao_R. replace t with (2 * (t / 2)) by lra.
  rewrite cos_2a_sin.
  assert (Hs : 0 < sin (t / 2)) by (apply sin_gt_0; lra).
  assert (0 < sin (t / 2) * sin (t / 2)) by (apply Rmult_lt_0_compat; lra).
  lra.
Qed.

Lemma cos_amostra_nao_nula (i : Z) :
  (0 <= i <= 125)%Z -> cos (IZR i * (5 / 100)) <> 0.
Proof.
  intros Hi. pose proof PI_entre as HPI.
  destruct (Z_le_gt_dec i 31) as [H1 | H1];
    [|destruct (Z_le_gt_dec i 94) as [H2 | H2]].
  - assert (0 <= IZR i <= 31) by (split; apply IZR_le; lia).
    apply Rgt_not_eq. apply cos_gt_0; lra.
  - assert (32 <= IZR i <= 94) by (split; apply IZR_le; lia).
    apply Rlt_not_eq. apply cos_lt_0; lra.
  - assert (95 <= IZR i <= 125) by (split; apply IZR_le; lia).
    rewrite <- cos_2PI_menos. apply Rgt_not_eq. apply cos_gt_0; lra.
Qed.

(** Where each sample lies with respect to the three places at which the
    velocity vanishes. *)
Lemma amostra_classificada (i : Z) :
  (0 <= i <= 125)%Z ->
  posicao (IZR i * (5 / 100)) <> x_max /\
  (i = 0%Z -> posicao (IZR i * (5 / 100)) = 1) /\
  (i <> 0%Z -> posicao (IZR i * (5 / 100)) < 1) /\
  ((62 <= i <= 64)%Z -> 0 < posicao (IZR i * (5 / 100)) < / 1000) /\
  (~ (62 <= i <= 64)%Z -> / 1000 < posicao (IZR i * (5 / 100))).
Proof.
  intros Hi. pose proof PI_entre as HPI.
  assert (Hr : 0 <= IZR i <= 125) by (split; apply IZR_le; lia).
  split; [|split; [|split; [|split]]].
  - rewrite posicao_R, x_max_R. pose proof (cos_amostra_nao_nula i Hi). lra.
  - intros ->. rewrite posicao_R. replace (0 * (5 / 100)) with 0 by lra.
    rewrite cos_0. lra.
  - intros Hne. apply posicao_abaixo_do_topo.
    assert (1 <= IZR i) by (apply (IZR_le 1); lia). lra.
  - intros Hm. assert (62 <= IZR i <= 64) by (split; apply IZR_le; lia).
    assert (Hlo : posicao (315 / 100) <= posicao (IZR i * (5 / 100))).
    { rewrite !posicao_R. pose proof (cos_amostra_minima i Hi). lra. }
    pose proof posicao_minima_entre.
    pose proof (posicao_dentro_do_ajuste (IZR i * (5 / 100))). lra.
  - intros Hm. apply posicao_acima_do_ajuste.
    destruct (Z_le_gt_dec i 61) as [H1 | H1].
    + left. assert (IZR i <= 61) by (apply IZR_le; lia). lra.
    + right. assert (65 <= IZR i) by (apply IZR_le; lia). lra.
Qed.

(** X8: the velocity series computed by the loop of lines 80-83 is [0] at
    exactly four of the 126 samples: the first (the top) and the three
    around the bottom, 62 to 64, whose positions fall inside the snap
    tolerance.  No sample falls on [x_max]. *)
Theorem velocidades_nulas (i : nat) :
  (i < 126)%nat ->
  nth i posicoes 0 <> x_max /\
  (nth i velocidades 0 = 0 <-> i = 0%nat \/ (62 <= i <= 64)%nat).
Proof.
  intros Hi.
  assert (Hv : nth i velocidades 0 =
               velocidade (calcular_Energias (nth i posicoes 0))).
  { unfold velocidades.
    rewrite (nth_indep _ 0 (velocidade (calcular_Energias 0))) by
      (rewrite length_map, posicoes_length; assumption).
    apply (map_nth (fun y => velocidade (calcular_Energias y))). }
  rewrite Hv, velocidade_nula_onde, posicoes_nth by assumption.
  destruct (amostra_classificada (Z.of_nat i)) as (Hx & H0 & H1 & Hin & Hout);
    [lia|].
  split; [exact Hx|]. rewrite y_max_R. split.
  - intros [Hy | [Hy | Hy]].
    + right. destruct (Z_le_gt_dec 62 (Z.of_nat i)) as [Ha | Ha];
        [destruct (Z_le_gt_dec (Z.of_nat i) 64) as [Hb | Hb]|]; [lia | |].
      * assert (Hn : ~ (62 <= Z.of_nat i <= 64)%Z) by lia.
        specialize (Hout Hn). lra.
      * assert (Hn : ~ (62 <= Z.of_nat i <= 64)%Z) by lia.
        specialize (Hout Hn). lra.
    + contradiction.
    + left. destruct i as [|i']; [reflexivity|].
      assert (Hn : Z.of_nat (S i') <> 0%Z) by lia. specialize (H1 Hn). lra.
  - intros [-> | Hm].
    + right. right. cbn [Z.of_nat] in *. rewrite H0 by reflexivity. lra.
    + left. assert (Hz : (62 <= Z.of_nat i <= 64)%Z) by lia.
      specialize (Hin Hz). lra.
Qed.

Lemma velocidades_nulas_witness :
  nth 63 velocidades 0 = 0.
Proof.
  assert (H : (63 < 126)%nat) by lia.
  apply (proj2 (velocidades_nulas 63 H)). right. lia.
Defined.

Lemma energia_entre_ajuste_e_topo (y : R) :
  / 1000 < y < 1 -> y <> x_max -> E_mec (calcular_Energias y) = E_t.
Proof.
  intros Hy Hne. pose proof (ajusta_acima y (proj1 Hy)) as Ha.
  destruct (Rlt_dec y x_max) as [Hlt | Hge].
  - apply energia_na_mola. rewrite Ha. lra.
  - apply energia_fora_da_mola. rewrite Ha, y_max_R. lra.
Qed.

(** X10: the sampled positions fall strictly from the first sample to
    sample 63 and rise strictly from sample 63 to the last: one descent and
    one ascent. *)
Theorem posicoes_unimodais (i j : nat) :
  (i < j)%nat -> (j < 126)%nat ->
  ((j <= 63)%nat -> nth j posicoes 0 < nth i posicoes 0) /\
  ((63 <= i)%nat -> nth i posicoes 0 < nth j posicoes 0).
Proof.
  intros Hij Hj. pose proof PI_entre as HPI.
  rewrite !posicoes_nth, !posicao_R by lia.
  assert (Hi0 : 0 <= IZR (Z.of_nat i)) by (apply IZR_le; lia).
  assert (Hlt : IZR (Z.of_nat i) < IZR (Z.of_nat j)) by (apply IZR_lt; lia).
  assert (Hj1 : IZR (Z.of_nat j) <= 125) by (apply IZR_le; lia).
  split; intros Hb.
  - assert (Hc : cos (IZR (Z.of_nat j) * (5 / 100))
                 < cos (IZR (Z.of_nat i) * (5 / 100))); [|lra].
    destruct (Nat.eq_dec j 63) as [-> | Hne].
    + assert (IZR (Z.of_nat i) <= 62) by (apply IZR_le; lia).
      cbn [Z.of_nat Pos.of_succ_nat Pos.succ].
      rewrite <- (cos_2PI_menos (63 * (5 / 100))).
      apply cos_decreasing_1; lra.
    + assert (IZR (Z.of_nat j) <= 62) by (apply IZR_le; lia).
      apply cos_decreasing_1; lra.
  - assert (63 <= IZR (Z.of_nat i)) by (apply IZR_le; lia).
    assert (Hc : cos (IZR (Z.of_nat i) * (5 / 100))
                 < cos (IZR (Z.of_nat j) * (5 / 100))); [|lra].
    apply cos_increasing_1; lra.
Qed.

Lemma posicoes_unimodais_witness :
  nth 1 posicoes 0 < nth 0 posicoes 0.
Proof.
  assert (H1 : (0 < 1)%nat) by lia.
  assert (H2 : (1 < 126)%nat) by lia.
  apply (proj1 (posicoes_unimodais 0 1 H1 H2)). lia.
Defined.

(** ** Python's [max] and [min] *)

Lemma fold_max_spec (l : list R) (a : R) :
  (fold_left maior l a = a \/ In (fold_left maior l a) l) /\
  a <= fold_left maior l a /\
  (forall x : R, In x l -> x <= fold_left maior l a).
Proof.
  revert a. induction l as [|b l IH]; intros a; cbn [fold_left].
  - split; [left; reflexivity|]. split; [lra|]. intros x [].
  - change (maior a b) with (if Rltb a b then b else a).
    unfold Rltb. destruct (Rlt_dec a b) as [Hab | Hab].
    + destruct (IH b) as (Hin & Hle & Hall).
      split; [right; destruct Hin as [-> | Hin];
              [left; reflexivity | right; exact Hin]|].
      split; [lra|]. intros x [<- | Hx]; [exact Hle | apply Hall, Hx].
    + destruct (IH a) as (Hin & Hle & Hall).
      split; [destruct Hin as [-> | Hin];
              [left; reflexivity | right; right; exact Hin]|].
      split; [exact Hle|]. intros x [<- | Hx]; [lra | apply Hall, Hx].
Qed.

Lemma fold_min_spec (l : list R) (a : R) :
  (fold_left menor l a = a \/ In (fold_left menor l a) l) /\
  fold_left menor l a <= a /\
  (forall x : R, In x l -> fold_left menor l a <= x).
Proof.
  revert a. induction l as [|b l IH]; intros a; cbn [fold_left].
  - split; [left; reflexivity|]. split; [lra|]. intros x [].
  - change (menor a b) with (if Rltb b a then b else a).
    unfold Rltb. destruct (Rlt_dec b a) as [Hab | Hab].
    + destruct (IH b) as (Hin & Hle & Hall).
      split; [right; destruct Hin as [-> | Hin];
              [left; reflexivity | right; exact Hin]|].
      split; [lra|]. intros x [<- | Hx]; [exact Hle | apply Hall, Hx].
    + destruct (IH a) as (Hin & Hle & Hall).
      split; [destruct Hin as [-> | Hin];
              [left; reflexivity | right; right; exact Hin]|].
      split; [exact Hle|]. intros x [<- | Hx]; [lra | apply Hall, Hx].
Qed.

Lemma py_max_spec (l : list R) (M : R) :
  py_max l = Some M -> In M l /\ (forall x : R, In x l -> x <= M).
Proof.
  destruct l as [|a l]; [discriminate|]. cbn [py_max]. intros [= <-].
  destruct (fold_max_spec l a) as (Hin & Hle & Hall).
  split.
  - destruct Hin as [-> | Hin]; [left; reflexivity | right; exact Hin].
  - intros x [<- | Hx]; [exact Hle | apply Hall, Hx].
Qed.

Lemma py_min_spec (l : list R) (M : R) :
  py_min l = Some M -> In M l /\ (forall x : R, In x l -> M <= x).
Proof.
  destruct l as [|a l]; [discriminate|]. cbn [py_min]. intros [= <-].
  destruct (fold_min_spec l a) as (Hin & Hle & Hall).
  split.
  - destruct Hin as [-> | Hin]; [left; reflexivity | right; exact Hin].
  - intros x [<- | Hx]; [exact Hle | apply Hall, Hx].
Qed.

Lemma py_max_Some (l : list R) : l <> [] -> exists M : R, py_max l = Some M.
Proof. destruct l; [contradiction | intros _; eexists; reflexivity]. Qed.

Lemma py_min_Some (l : list R) : l <> [] -> exists M : R, py_min l = Some M.
Proof. destruct l; [contradiction | intros _; eexists; reflexivity]. Qed.

(** The greatest item is determined by an item that bounds the others. *)
Lemma py_max_unico (l : list R) (M b : R) :
  py_max l = Some M -> In b l -> (forall x : R, In x l -> x <= b) -> M = b.
Proof.
  intros HM Hb Hall. destruct (py_max_spec l M HM) as [Hin Hmax].
  apply Rle_antisym; auto.
Qed.

Lemma py_min_unico (l : list R) (M b : R) :
  py_min l = Some M -> In b l -> (forall x : R, In x l -> b <= x) -> M = b.
Proof.
  intros HM Hb Hall. destruct (py_min_spec l M HM) as [Hin Hmin].
  apply Rle_antisym; auto.
Qed.

Lemma nao_vazia (X : Type) (l : list X) : (0 < length l)%nat -> l <> [].
Proof. destruct l; cbn; [lia | discriminate]. Qed.

Lemma lit_1_2 : @lit R _ 1.2 = 12 / 10.
Proof. unfold lit. R_ops. reflexivity. Qed.

(** ** The limits of the three line plots *)

Lemma posicoes_In_nth (i : nat) : (i < 126)%nat -> In (nth i posicoes 0) posicoes.
Proof. intros Hi. apply nth_In. rewrite posicoes_length. assumption. Qed.

Lemma velocidades_length : length velocidades = 126%nat.
Proof. unfold velocidades. rewrite length_map. apply posicoes_length. Qed.

Lemma deformacoes_length : length deformacoes = 126%nat.
Proof. unfold deformacoes. rewrite length_map. apply posicoes_length. Qed.

Lemma velocidades_In (v : R) :
  In v velocidades ->
  exists y : R, In y posicoes /\ v = velocidade (calcular_Energias y).
Proof.
  unfold velocidades. intros Hv. apply in_map_iff in Hv.
  destruct Hv as (y & <- & Hy). exists y. auto.
Qed.

Lemma deformacoes_In (d : R) :
  In d deformacoes ->
  exists y : R, In y posicoes /\ d = deformacao (calcular_Energias y).
Proof.
  unfold deformacoes. intros Hd. apply in_map_iff in Hd.
  destruct Hd as (y & <- & Hy). exists y. auto.
Qed.

Lemma velocidade_quadrado_limitado (y : R) :
  velocidade (calcular_Energias y) * velocidade (calcular_Energias y)
  <= 9 / 8 * g.
Proof.
  pose proof (K_c_limitada y) as HK. rewrite K_c_R in HK.
  rewrite m_R, g_R, y_max_R in HK. rewrite g_R. lra.
Qed.

Lemma tempos_In (t : R) : In t tempos -> 0 <= t < t_total.
Proof.
  rewrite tempos_eq. intros Hin. apply in_map_iff in Hin.
  destruct Hin as (i & <- & Hi). apply in_seq in Hi.
  rewrite dt_R, INR_IZR_INZ. unfold t_total. pose proof PI_entre.
  assert (0 <= IZR (Z.of_nat i) <= 125) by (split; apply IZR_le; lia).
  lra.
Qed.

Lemma trajetoria_inicio :
  nth 0 posicoes 0 = y_max /\ nth 0 velocidades 0 = 0.
Proof.
  assert (Hp : nth 0 posicoes 0 = y_max).
  { rewrite posicoes_nth by lia. rewrite posicao_R. cbn [Z.of_nat].
    replace (0 * (5 / 100)) with 0 by lra. rewrite cos_0, y_max_R. lra. }
  split; [exact Hp|].
  unfold velocidades.
  rewrite (nth_indep _ 0 (velocidade (calcular_Energias 0))) by
    (rewrite length_map, posicoes_length; lia).
  rewrite (map_nth (fun y => velocidade (calcular_Energias y)) posicoes 0 0).
  rewrite Hp. apply velocidade_nula_acima. lra.
Qed.

Lemma ylim_posicao_valor : ylim_posicao = Some (0, y_max * (12 / 10)).
Proof.
  unfold ylim_posicao.
  destruct (py_max_Some posicoes) as [M HM].
  { apply nao_vazia. rewrite posicoes_length. lia. }
  rewrite HM, lit_1_2.
  assert (HMy : M = y_max).
  { apply (py_max_unico posicoes); [exact HM | |].
    - destruct trajetoria_inicio as [<- _]. apply posicoes_In_nth. lia.
    - intros y Hy. apply posicoes_entre in Hy. lra. }
  rewrite HMy. reflexivity.
Qed.

Lemma velocidade_amostra_10 : 0 < nth 10 velocidades 0.
Proof.
  unfold velocidades.
  rewrite (nth_indep _ 0 (velocidade (calcular_Energias 0))) by
    (rewrite length_map, posicoes_length; lia).
  rewrite (map_nth (fun y => velocidade (calcular_Energias y)) posicoes 0 10).
  rewrite posicoes_nth by lia.
  destruct (amostra_classificada (Z.of_nat 10)) as (Hx & _ & H1 & _ & Hout);
    [lia|].
  apply velocidade_positiva; [|exact Hx].
  rewrite y_max_R. split; [apply Hout | apply H1]; lia.
Qed.

Lemma ylim_velocidade_valor :
  exists M : R,
    ylim_velocidade = Some (0, M * (12 / 10)) /\
    0 < M /\ M * M <= 9 / 8 * g /\
    (forall v : R, In v velocidades -> 0 <= v <= M).
Proof.
  assert (Hne : velocidades <> []).
  { apply nao_vazia. rewrite velocidades_length. lia. }
  destruct (py_max_Some velocidades Hne) as [M HM].
  destruct (py_min_Some velocidades Hne) as [a Ha].
  assert (Hpos : forall v, In v velocidades -> 0 <= v).
  { intros v Hv. apply velocidades_In in Hv. destruct Hv as (y & _ & ->).
    apply velocidade_nao_negativa. }
  assert (Ha0 : a = 0).
  { apply (py_min_unico velocidades); [exact Ha | | exact Hpos].
    destruct trajetoria_inicio as [_ <-]. apply nth_In.
    rewrite velocidades_length. lia. }
  destruct (py_max_spec velocidades M HM) as [HMin HMall].
  exists M. unfold ylim_velocidade. rewrite HM, Ha, Ha0, lit_1_2.
  split; [reflexivity|]. split; [|split].
  - apply Rlt_le_trans with (nth 10 velocidades 0);
      [apply velocidade_amostra_10|].
    apply HMall, nth_In. rewrite velocidades_length. lia.
  - apply velocidades_In in HMin. destruct HMin as (y & _ & ->).
    apply velocidade_quadrado_limitado.
  - intros v Hv. split; [apply Hpos | apply HMall]; assumption.
Qed.

Lemma ylim_deformacao_valor :
  exists D : R,
    ylim_deformacao = Some (0, D * (12 / 10)) /\
    0 < D < x_max /\
    (forall d : R, In d deformacoes -> 0 <= d <= D).
Proof.
  assert (Hne : deformacoes <> []).
  { apply nao_vazia. rewrite deformacoes_length. lia. }
  destruct (py_max_Some deformacoes Hne) as [D HD].
  destruct (py_max_spec deformacoes D HD) as [HDin HDall].
  pose proof posicao_minima_entre as Hmin.
  exists D. unfold ylim_deformacao. rewrite HD, lit_1_2.
  split; [reflexivity|]. split; [split|].
  - apply Rlt_le_trans with (nth 63 deformacoes 0).
    + unfold deformacoes.
      rewrite (nth_indep _ 0 (deformacao (calcular_Energias 0))) by
        (rewrite length_map, posicoes_length; lia).
      rewrite (map_nth (fun y => deformacao (calcular_Energias y)) posicoes 0 63).
      rewrite posicoes_nth by lia. cbn [Z.of_nat Pos.of_succ_nat Pos.succ].
      replace (63 * (5 / 100)) with (315 / 100) by lra.
      rewrite deformacao_R, deformacao_mola_lt; rewrite x_max_R; lra.
    + apply HDall, nth_In. rewrite deformacoes_length. lia.
  - apply deformacoes_In in HDin. destruct HDin as (y & Hy & ->).
    apply posicoes_entre in Hy. rewrite deformacao_R.
    destruct (Rlt_dec y x_max) as [Hlt | Hge].
    + rewrite deformacao_mola_lt by assumption. lra.
    + rewrite deformacao_mola_ge by lra. rewrite x_max_R. lra.
  - intros d Hd. split; [|apply HDall; assumption].
    apply deformacoes_In in Hd. destruct Hd as (y & Hy & ->).
    apply posicoes_entre in Hy. apply deformacao_nao_negativa. lra.
Qed.

(** X11: the limits given to the three line plots are all defined (no
    [max] or [min] of an empty sequence) and contain every point of the
    series: the position axis runs from [0] to [1.2 y_max]; the velocity
    axis from [0] to [1.2 M] with [M] the greatest velocity, positive and
    with [M^2 <= 9 g / 8]; the deformation axis from [0] to [1.2 D] with
    [0 < D < x_max]; and every time lies in [[0, t_total)]. *)
Theorem eixos_contem_os_dados :
  ylim_posicao = Some (0, y_max * (12 / 10)) /\
  (forall y : R, In y posicoes -> 0 < y <= y_max) /\
  (exists M : R,
     ylim_velocidade = Some (0, M * (12 / 10)) /\
     0 < M /\ M * M <= 9 / 8 * g /\
     (forall v : R, In v velocidades -> 0 <= v <= M)) /\
  (exists D : R,
     ylim_deformacao = Some (0, D * (12 / 10)) /\
     0 < D < x_max /\
     (forall d : R, In d deformacoes -> 0 <= d <= D)) /\
  (forall t : R, In t tempos -> fst xlim_tempo <= t < snd xlim_tempo).
Proof.
  split; [exact ylim_posicao_valor|].
  split.
  { intros y Hy. apply posicoes_entre in Hy.
    pose proof posicao_minima_entre. lra. }
  split; [exact ylim_velocidade_valor|].
  split; [exact ylim_deformacao_valor|].
  exact tempos_In.
Qed.

(** ** The update of the figure *)

Lemma frames_eq : frames = [0; 10; 20; 30; 40; 50; 60; 70; 80; 90; 100; 110; 120]%nat.
Proof. unfold frames. rewrite tempos_length. reflexivity. Qed.

Lemma frames_In (f : nat) :
  In f frames -> (f < 126)%nat /\ ~ (62 <= f <= 64)%nat /\ (f mod 10 = 0)%nat.
Proof.
  rewrite frames_eq. cbn [In]. intros Hf.
  repeat (destruct Hf as [<- | Hf]; [cbn; lia|]). contradiction.
Qed.

(** The values handed to the bars, for a position. *)
Lemma energias_max (y : R) :
  0 <= y <= y_max ->
  py_max [E_mec (calcular_Energias y); K_c (calcular_Energias y);
          U_g (calcular_Energias y); U_el (calcular_Energias y)]
  = Some (E_mec (calcular_Energias y)) /\
  0 <= K_c (calcular_Energias y) <= E_mec (calcular_Energias y) /\
  0 <= U_g (calcular_Energias y) <= E_mec (calcular_Energias y) /\
  0 <= U_el (calcular_Energias y) <= E_mec (calcular_Energias y).
Proof.
  intros Hy.
  pose proof (K_c_nao_negativa y) as HK.
  pose proof (U_el_nao_negativa y) as HE.
  assert (HU : 0 <= U_g (calcular_Energias y)).
  { rewrite U_g_R, m_R, g_R. pose proof (ajusta_dominio y Hy).
    apply Rmult_le_pos; lra. }
  pose proof (E_mec_R y) as Hsum.
  split; [|lra].
  cbn [py_max fold_left]. unfold maior.
  rewrite (Rltb_false (E_mec (calcular_Energias y)) (K_c (calcular_Energias y)))
    by lra.
  rewrite (Rltb_false (E_mec (calcular_Energias y)) (U_g (calcular_Energias y)))
    by lra.
  rewrite (Rltb_false (E_mec (calcular_Energias y)) (U_el (calcular_Energias y)))
    by lra.
  reflexivity.
Qed.

Lemma posicoes_nth_error (frame : nat) :
  (frame < 126)%nat -> nth_error posicoes frame = Some (nth frame posicoes 0).
Proof. intros Hf. apply nth_error_nth'. rewrite posicoes_length. assumption. Qed.

Lemma posicoes_nth_dominio (frame : nat) :
  (frame < 126)%nat -> 0 <= nth frame posicoes 0 <= y_max.
Proof.
  intros Hf. pose proof (posicoes_entre _ (posicoes_In_nth frame Hf)).
  pose proof posicao_minima_entre. lra.
Qed.

(** What [update] returns on a frame inside the series. *)
Lemma update_dentro (frame : nat) (fig : Figura) :
  (frame < 126)%nat ->
  update frame fig =
  Retorna
    (mkFigura
       (firstn frame tempos, firstn frame posicoes)
       (firstn frame tempos, firstn frame velocidades)
       (firstn frame tempos, firstn frame deformacoes)
       (set_heights (barras fig)
          [E_mec (calcular_Energias (nth frame posicoes 0));
           K_c (calcular_Energias (nth frame posicoes 0));
           U_g (calcular_Energias (nth frame posicoes 0));
           U_el (calcular_Energias (nth frame posicoes 0))])
       (0, E_mec (calcular_Energias (nth frame posicoes 0)) * (12 / 10))).
Proof.
  intros Hf. unfold update. rewrite (posicoes_nth_error frame Hf).
  cbn zeta. cbn [linha_posicao linha_velocidade linha_deformacao barras
                 ylim_energia].
  destruct (energias_max _ (posicoes_nth_dominio frame Hf)) as [-> _].
  rewrite lit_1_2. reflexivity.
Qed.

Lemma update_fora (frame : nat) (fig : Figura) :
  (126 <= frame)%nat ->
  update frame fig =
  Excecao (mkFigura (tempos, posicoes) (tempos, velocidades)
                    (tempos, deformacoes) (barras fig) (ylim_energia fig)).
Proof.
  intros Hf. unfold update.
  assert (Hn : nth_error posicoes frame = None).
  { apply nth_error_None. rewrite posicoes_length. assumption. }
  rewrite Hn. cbn zeta.
  rewrite !firstn_all2 by
    (rewrite ?tempos_length, ?posicoes_length, ?velocidades_length,
       ?deformacoes_length; assumption).
  reflexivity.
Qed.

(** X12: [update] returns exactly on the frames below the number of samples,
    126; from there on [posicoes[frame]] raises, after the three lines have
    been given the whole series and with the bars and the limits of the bar
    chart untouched.  Every frame of the animation is below 126. *)
Theorem update_indice (frame : nat) (fig : Figura) :
  ((frame < 126)%nat <-> exists fig' : Figura, update frame fig = Retorna fig') /\
  ((126 <= frame)%nat ->
     update frame fig =
     Excecao (mkFigura (tempos, posicoes) (tempos, velocidades)
                       (tempos, deformacoes) (barras fig) (ylim_energia fig))) /\
  (In frame frames -> exists fig' : Figura, update frame fig = Retorna fig').
Proof.
  split; [split|split].
  - intros Hf. rewrite (update_dentro frame fig Hf). eexists. reflexivity.
  - intros [fig' Hr]. destruct (Nat.lt_ge_cases frame 126) as [Hlt | Hge];
      [assumption|].
    rewrite (update_fora frame fig Hge) in Hr. discriminate.
  - apply update_fora.
  - intros Hin. destruct (frames_In frame Hin) as [Hf _].
    rewrite (update_dentro frame fig Hf). eexists. reflexivity.
Qed.

Lemma set_heights_length (bars energias : list R) :
  length (set_heights bars energias) = length bars.
Proof.
  revert energias. induction bars as [|b bars IH]; intros [|e energias];
    cbn [set_heights length]; try reflexivity.
  rewrite IH. reflexivity.
Qed.

Lemma set_heights_twice (bars e1 e2 : list R) :
  length e1 = length e2 ->
  set_heights (set_heights bars e1) e2 = set_heights bars e2.
Proof.
  revert e1 e2. induction bars as [|b bars IH]; intros [|a e1] [|c e2] Hlen;
    cbn [set_heights] in *; try reflexivity; try discriminate.
  rewrite IH by (cbn [length] in Hlen; lia). reflexivity.
Qed.

Lemma set_heights_quatro (bars : list R) (a b c d : R) :
  length bars = 4%nat -> set_heights bars [a; b; c; d] = [a; b; c; d].
Proof.
  destruct bars as [|b1 [|b2 [|b3 [|b4 [|b5 bars]]]]]; cbn [length];
    intros Hlen; try discriminate.
  reflexivity.
Qed.

(** X13: whatever the frame and whether the call returns or raises, each
    of the three lines is left with as many abscissas as ordinates: the
    first [min frame 126] times and values of its series. *)
Theorem update_linhas (frame : nat) (fig fig' : Figura) :
  update frame fig = Retorna fig' \/ update frame fig = Excecao fig' ->
  linha_posicao fig' = (firstn frame tempos, firstn frame posicoes) /\
  linha_velocidade fig' = (firstn frame tempos, firstn frame velocidades) /\
  linha_deformacao fig' = (firstn frame tempos, firstn frame deformacoes) /\
  length (fst (linha_posicao fig')) = Nat.min frame 126 /\
  length (snd (linha_posicao fig')) = Nat.min frame 126 /\
  length (fst (linha_velocidade fig')) = Nat.min frame 126 /\
  length (snd (linha_velocidade fig')) = Nat.min frame 126 /\
  length (fst (linha_deformacao fig')) = Nat.min frame 126 /\
  length (snd (linha_deformacao fig')) = Nat.min frame 126.
Proof.
  intros Hr.
  assert (Hl : linha_posicao fig' = (firstn frame tempos, firstn frame posicoes) /\
               linha_velocidade fig' = (firstn frame tempos, firstn frame velocidades) /\
               linha_deformacao fig' = (firstn frame tempos, firstn frame deformacoes)).
  { destruct (Nat.lt_ge_cases frame 126) as [Hlt | Hge].
    - rewrite (update_dentro frame fig Hlt) in Hr.
      destruct Hr as [[= <-] | Hr]; [|discriminate].
      cbn [linha_posicao linha_velocidade linha_deformacao]. auto.
    - rewrite (update_fora frame fig Hge) in Hr.
      destruct Hr as [Hr | [= <-]]; [discriminate|].
      cbn [linha_posicao linha_velocidade linha_deformacao].
      rewrite !firstn_all2 by
        (rewrite ?tempos_length, ?posicoes_length, ?velocidades_length,
           ?deformacoes_length; assumption).
      auto. }
  destruct Hl as (H1 & H2 & H3). rewrite H1, H2, H3. cbn [fst snd].
  rewrite !length_firstn, tempos_length, posicoes_length, velocidades_length,
    deformacoes_length.
  repeat split; reflexivity.
Qed.

Lemma update_linhas_witness :
  length (fst (linha_posicao
    (mkFigura
       (firstn 10 tempos, firstn 10 posicoes)
       (firstn 10 tempos, firstn 10 velocidades)
       (firstn 10 tempos, firstn 10 deformacoes)
       (set_heights valores_iniciais
          [E_mec (calcular_Energias (nth 10 posicoes 0));
           K_c (calcular_Energias (nth 10 posicoes 0));
           U_g (calcular_Energias (nth 10 posicoes 0));
           U_el (calcular_Energias (nth 10 posicoes 0))])
       (0, E_mec (calcular_Energias (nth 10 posicoes 0)) * (12 / 10)))))
  = Nat.min 10 126.
Proof.
  assert (H : (10 < 126)%nat) by lia.
  pose proof (update_dentro 10 (figura_inicial (0, 1)) H) as Hu.
  exact (proj1 (proj2 (proj2 (proj2
    (update_linhas 10 (figura_inicial (0, 1)) _ (or_introl Hu)))))).
Defined.

(** X14: on a frame below 126 and a figure with four bars, [update] leaves
    the bars at the heights [E_mec, K_c, U_g, U_el] of the frame's position
    and the bar chart with the limits [0] and [1.2 E_mec]: the greatest of
    the four values is always the total, and every bar lies between [0] and
    the total, inside the limits. *)
Theorem update_barras (frame : nat) (fig : Figura) :
  (frame < 126)%nat -> length (barras fig) = 4%nat ->
  exists fig' : Figura,
    update frame fig = Retorna fig' /\
    barras fig' =
      [E_mec (calcular_Energias (nth frame posicoes 0));
       K_c (calcular_Energias (nth frame posicoes 0));
       U_g (calcular_Energias (nth frame posicoes 0));
       U_el (calcular_Energias (nth frame posicoes 0))] /\
    ylim_energia fig' =
      (0, E_mec (calcular_Energias (nth frame posicoes 0)) * (12 / 10)) /\
    (forall b : R, In b (barras fig') ->
       fst (ylim_energia fig') <= b <= E_mec (calcular_Energias (nth frame posicoes 0)) /\
       b <= snd (ylim_energia fig')).
Proof.
  intros Hf Hb. eexists. split; [apply (update_dentro frame fig Hf)|].
  cbn [barras ylim_energia fst snd].
  rewrite (set_heights_quatro _ _ _ _ _ Hb).
  split; [reflexivity|]. split; [reflexivity|].
  destruct (energias_max _ (posicoes_nth_dominio frame Hf)) as (_ & HK & HU & HE).
  intros b Hin. cbn [In] in Hin.
  destruct Hin as [<- | [<- | [<- | [<- | []]]]]; lra.
Qed.

Lemma update_barras_witness :
  exists fig' : Figura,
    update 10 (figura_inicial (0, 1)) = Retorna fig' /\
    ylim_energia fig' =
      (0, E_mec (calcular_Energias (nth 10 posicoes 0)) * (12 / 10)).
Proof.
  assert (H1 : (10 < 126)%nat) by lia.
  assert (H2 : length (barras (figura_inicial (0, 1))) = 4%nat) by reflexivity.
  destruct (update_barras 10 (figura_inicial (0, 1)) H1 H2)
    as (fig' & Hu & _ & Hy & _).
  exists fig'. split; assumption.
Defined.

Lemma energia_amostra_conservada (i : nat) :
  (i < 126)%nat -> ~ (62 <= i <= 64)%nat ->
  E_mec (calcular_Energias (nth i posicoes 0)) = m * g * y_max.
Proof.
  intros Hi Hn. rewrite posicoes_nth by assumption.
  change (@m R _ * g * y_max) with (@E_t R _).
  destruct (amostra_classificada (Z.of_nat i)) as (Hx & H0 & H1 & _ & Hout);
    [lia|].
  assert (Hz : ~ (62 <= Z.of_nat i <= 64)%Z) by lia.
  destruct (Z.eq_dec (Z.of_nat i) 0) as [He | He].
  - rewrite (H0 He). destruct energias_no_topo as (_ & _ & _ & _ & HE).
    rewrite HE, E_t_R. reflexivity.
  - apply energia_entre_ajuste_e_topo;
      [specialize (Hout Hz); specialize (H1 He); lra | exact Hx].
Qed.

(** X15: on every frame of the animation (every tenth sample, 0 to 120) and
    a figure with four bars, [update] returns with the first bar at exactly
    [m g y_max] and the bar chart limited to [0 .. 1.2 m g y_max]: the total
    and the scale of the chart are the same on all thirteen frames, and the
    other three bars add up to the first. *)
Theorem update_nos_frames (frame : nat) (fig : Figura) :
  In frame frames -> length (barras fig) = 4%nat ->
  exists (fig' : Figura) (K Ug Uel : R),
    update frame fig = Retorna fig' /\
    barras fig' = [m * g * y_max; K; Ug; Uel] /\
    K + Ug + Uel = m * g * y_max /\
    0 <= K /\ 0 <= Ug /\ 0 <= Uel /\
    ylim_energia fig' = (0, m * g * y_max * (12 / 10)).
Proof.
  intros Hin Hb. destruct (frames_In frame Hin) as (Hf & Hn & _).
  pose proof (energia_amostra_conservada frame Hf Hn) as HE.
  destruct (energias_max _ (posicoes_nth_dominio frame Hf)) as (_ & HK & HU & HEl).
  pose proof (E_mec_R (nth frame posicoes 0)) as Hsum.
  rewrite HE in Hsum.
  exists (mkFigura
       (firstn frame tempos, firstn frame posicoes)
       (firstn frame tempos, firstn frame velocidades)
       (firstn frame tempos, firstn frame deformacoes)
       [m * g * y_max;
        K_c (calcular_Energias (nth frame posicoes 0));
        U_g (calcular_Energias (nth frame posicoes 0));
        U_el (calcular_Energias (nth frame posicoes 0))]
       (0, m * g * y_max * (12 / 10))).
  exists (K_c (calcular_Energias (nth frame posicoes 0))),
         (U_g (calcular_Energias (nth frame posicoes 0))),
         (U_el (calcular_Energias (nth frame posicoes 0))).
  split.
  { rewrite (update_dentro frame fig Hf), (set_heights_quatro _ _ _ _ _ Hb), HE.
    reflexivity. }
  cbn [barras ylim_energia].
  repeat split; try reflexivity; lra.
Qed.

Lemma update_nos_frames_witness :
  exists (fig' : Figura) (K Ug Uel : R),
    update 60 (figura_inicial (0, 1)) = Retorna fig' /\
    barras fig' = [m * g * y_max; K; Ug; Uel].
Proof.
  assert (H1 : In 60%nat frames) by (rewrite frames_eq; cbn [In]; tauto).
  assert (H2 : length (barras (figura_inicial (0, 1))) = 4%nat) by reflexivity.
  destruct (update_nos_frames 60 (figura_inicial (0, 1)) H1 H2)
    as (fig' & K & Ug & Uel & Hu & Hbar & _).
  exists fig', K, Ug, Uel. split; assumption.
Defined.

Lemma update_sobrescreve (f1 f2 : nat) (fig fig1 : Figura) :
  update f1 fig = Retorna fig1 -> (f2 < 126)%nat ->
  update f2 fig1 = update f2 fig /\ length (barras fig1) = length (barras fig).
Proof.
  intros H1 H2.
  assert (Hf1 : (f1 < 126)%nat).
  { destruct (Nat.lt_ge_cases f1 126) as [Hlt | Hge]; [assumption|].
    rewrite (update_fora f1 fig Hge) in H1. discriminate. }
  rewrite (update_dentro f1 fig Hf1) in H1. injection H1 as <-.
  rewrite !(update_dentro f2 _ H2). cbn [barras].
  rewrite set_heights_twice by reflexivity.
  rewrite set_heights_length. split; reflexivity.
Qed.

(** X16: [update] keeps no memory of earlier frames: after a call that
    returned, a call on any frame below 126 gives exactly the figure it
    would have given before it; and the number of bars never changes. *)
Theorem update_sem_memoria (f1 f2 : nat) (fig fig1 : Figura) :
  update f1 fig = Retorna fig1 -> (f2 < 126)%nat ->
  update f2 fig1 = update f2 fig /\ length (barras fig1) = length (barras fig).
Proof. exact (update_sobrescreve f1 f2 fig fig1). Qed.

Lemma update_sem_memoria_witness :
  exists fig1 : Figura,
    update 10 (figura_inicial (0, 1)) = Retorna fig1 /\
    update 20 fig1 = update 20 (figura_inicial (0, 1)).
Proof.
  assert (H1 : (10 < 126)%nat) by lia.
  assert (H2 : (20 < 126)%nat) by lia.
  eexists. split; [exact (update_dentro 10 (figura_inicial (0, 1)) H1)|].
  exact (proj1 (update_sem_memoria 10 20 (figura_inicial (0, 1)) _
                  (update_dentro 10 (figura_inicial (0, 1)) H1) H2)).
Defined.

Lemma last_cons (fs : list nat) (f f0 : nat) : last (f :: fs) f0 = last fs f.
Proof.
  revert f f0. induction fs as [|a fs IH]; intros f f0; [reflexivity|].
  change (last (f :: a :: fs) f0) with (last (a :: fs) f0).
  rewrite (IH a f0), (IH a f). reflexivity.
Qed.

Lemma passagem_cons (f : nat) (fs : list nat) (fig : Figura) :
  passagem (f :: fs) fig =
  match update f fig with
  | Retorna fig' => passagem fs fig'
  | Excecao fig' => Excecao fig'
  end.
Proof. reflexivity. Qed.

Lemma passagem_ultimo (fs : list nat) (f0 : nat) (fig fig0 : Figura) :
  (forall f : nat, In f fs -> (f < 126)%nat) -> (f0 < 126)%nat ->
  update f0 fig = Retorna fig0 ->
  passagem fs fig0 = update (last fs f0) fig.
Proof.
  revert f0 fig0. induction fs as [|f fs IH]; intros f0 fig0 Hall Hf0 H0.
  - cbn [passagem last]. symmetry. exact H0.
  - assert (Hf : (f < 126)%nat) by (apply Hall; left; reflexivity).
    cbn [passagem].
    destruct (update_sobrescreve f0 f fig fig0 H0 Hf) as [Heq _].
    rewrite Heq, last_cons. rewrite (update_dentro f fig Hf).
    apply (IH f _ (fun f' Hin => Hall f' (or_intror Hin)) Hf
              (update_dentro f fig Hf)).
Qed.

(** X17: a pass of the animation over its frames never raises, from any
    figure, and ends with the figure that a single call of [update] on the
    last frame, 120, gives; so does any number of further passes. *)
Theorem passagem_completa (fig : Figura) :
  passagem frames fig = update 120 fig /\
  (exists fig' : Figura, passagem frames fig = Retorna fig') /\
  (forall fig' : Figura,
     passagem frames fig = Retorna fig' ->
     passagem frames fig' = Retorna fig').
Proof.
  assert (Hall : forall f : nat, In f frames -> (f < 126)%nat).
  { intros f Hf. apply (frames_In f Hf). }
  assert (H0 : (0 < 126)%nat) by lia.
  assert (H120 : (120 < 126)%nat) by lia.
  assert (Hp : forall fg, passagem frames fg = update 120 fg).
  { intros fg.
    assert (Hcauda : forall f : nat,
              In f [10; 20; 30; 40; 50; 60; 70; 80; 90; 100; 110; 120]%nat ->
              (f < 126)%nat).
    { intros f Hin. apply Hall. rewrite frames_eq. right. exact Hin. }
    rewrite frames_eq, passagem_cons, (update_dentro 0 fg H0).
    rewrite (passagem_ultimo _ 0 fg _ Hcauda H0 (update_dentro 0 fg H0)).
    reflexivity. }
  split; [apply Hp|]. split.
  - rewrite Hp, (update_dentro 120 fig H120). eexists. reflexivity.
  - intros fig' Hr. rewrite Hp in Hr. rewrite Hp.
    destruct (update_sobrescreve 120 120 fig fig' Hr H120) as [-> _].
    exact Hr.
Qed.

(** ** The snap on doubles *)

Module Binary64.

Import PrimFloat.
Import B64.
Set Warnings "-inexact-float".

(** X18: on binary64, for every double on which the test of line 46
    succeeds, the function returns the velocity, the kinetic energy and the
    gravitational potential [+0]; the test is [abs(y - 0.0) <= 1e-3 + 1e-5 *
    abs(0.0)] in double arithmetic, false on a NaN. *)
Theorem ajuste_em_doubles (y : float) :
  isclose y (lit 0.0) rtol_default (lit 1e-3) = true ->
  velocidade (calcular_Energias y) = 0%float /\
  K_c (calcular_Energias y) = 0%float /\
  U_g (calcular_Energias y) = 0%float.
Proof.
  intros Hy. rewrite calcular_Energias_eq. unfold ajusta. rewrite Hy.
  cbn zeta. cbn [velocidade K_c U_g]. repeat split; vm_compute; reflexivity.
Qed.

Lemma ajuste_em_doubles_witness :
  isclose 0.0005%float (lit 0.0) rtol_default (lit 1e-3) = true /\
  velocidade (calcular_Energias 0.0005%float) = 0%float.
Proof.
  assert (H : isclose 0.0005%float (lit 0.0) rtol_default (lit 1e-3) = true)
    by (vm_compute; reflexivity).
  split; [exact H | exact (proj1 (ajuste_em_doubles 0.0005%float H))].
Defined.

End Binary64.

(** * Statements that hold up to rounding

    The energies the script returns are doubles: each operation rounds, and
    the snap compares with the double [1e-3].  The statements below are
    made so that rounding cannot break them: the bound of the snap is the
    one the script holds, [limiar_ajuste], equalities between computed
    energies are stated within [tolerancia], and the binary64 instance is
    evaluated at the inputs where rounding shows. *)

Lemma limiar_valor : limiar_ajuste = 4611686018427388 / 4611686018427387904.
Proof.
  unfold limiar_ajuste, B64.to_R.
  replace (FloatOps.Prim2SF (@lit PrimFloat.float B64.B64_num 1e-3))
    with (SpecFloat.S754_finite false 4611686018427388 (-62))
    by (vm_compute; reflexivity).
  change (Z.pow_pos 2 62) with 4611686018427387904%Z.
  reflexivity.
Qed.

(** The double [1e-3] is above [1/1000], by less than [1e-19]. *)
Lemma limiar_entre :
  / 1000 < limiar_ajuste < / 1000 + / 10000000000000000000.
Proof. rewrite limiar_valor. lra. Qed.

(** It is the least double above [1/1000]: the double just below it is
    below [1/1000]. *)
Lemma limiar_minimo :
  B64.to_R (PrimFloat.next_down (@lit PrimFloat.float B64.B64_num 1e-3))
  < / 1000.
Proof.
  unfold B64.to_R.
  replace (FloatOps.Prim2SF
             (PrimFloat.next_down (@lit PrimFloat.float B64.B64_num 1e-3)))
    with (SpecFloat.S754_finite false 4611686018427387 (-62))
    by (vm_compute; reflexivity).
  change (Z.pow_pos 2 62) with 4611686018427387904%Z.
  lra.
Qed.

Lemma Rabs_limites (a b : R) : Rabs a <= b -> - b <= a <= b.
Proof.
  intros H. pose proof (Rle_abs a) as H1. pose proof (Rle_abs (- a)) as H2.
  rewrite Rabs_Ropp in H2. lra.
Qed.

Lemma tolerancia_valor : tolerancia = / 1000000000.
Proof. reflexivity. Qed.

Lemma PI_estreito : 3.1415 < PI < 3.1416.
Proof.
  pose proof (PI_2_3_7_ineq 3) as H.
  unfold PI_2_3_7_tg, tg_alt, Ratan_seq in H.
  cbn [sum_f_R0 Nat.mul Nat.add pow INR] in H.
  lra.
Qed.

(** The least sample is not below [1.6e-5]. *)
Lemma posicao_minima_abaixo : 16 / 1000000 <= posicao (315 / 100).
Proof.
  pose proof PI_estreito as HPI. rewrite posicao_seno.
  set (d := (315 / 100 - PI) / 2).
  assert (Hd : 42 / 10000 < d < 43 / 10000) by (unfold d; lra).
  assert (Hs : 41 / 10000 <= sin d).
  { pose proof (sin_cubica d) as Hc.
    assert (Hd2 : 0 <= d * d <= / 10000) by nra.
    assert (Hd3 : d * d * d <= / 10000) by nra.
    lra. }
  replace ((PI - 315 / 100) / 2) with (- d) by (unfold d; lra).
  rewrite sin_neg. nra.
Qed.

(** What is missing from the budget at a position inside the snap. *)
Lemma energia_ajustada_valor (y : R) :
  0 < y <= / 1000 ->
  E_mec (calcular_Energias y) = m * g * y_max - 35316 / 10 * (y * (1 - y)).
Proof.
  intros Hy. destruct (energias_ajustadas y Hy) as (_ & _ & _ & _ & ->).
  rewrite k_R, x_max_R, m_R, g_R, y_max_R. field.
Qed.

Lemma energia_amostra_ajustada (i : nat) :
  (62 <= i <= 64)%nat ->
  E_mec (calcular_Energias (nth i posicoes 0)) <= m * g * y_max - / 20.
Proof.
  intros Hi. rewrite posicoes_nth by lia.
  destruct (amostra_classificada (Z.of_nat i)) as (_ & _ & _ & Hin & _); [lia|].
  assert (Hz : (62 <= Z.of_nat i <= 64)%Z) by lia. specialize (Hin Hz).
  assert (Hlo : posicao (315 / 100) <= posicao (IZR (Z.of_nat i) * (5 / 100))).
  { rewrite !posicao_R. pose proof (cos_amostra_minima (Z.of_nat i)) as Hc.
    assert (Hr : (0 <= Z.of_nat i <= 125)%Z) by lia. specialize (Hc Hr). lra. }
  pose proof posicao_minima_abaixo as Hmin.
  set (y := posicao (IZR (Z.of_nat i) * (5 / 100))) in *.
  rewrite energia_ajustada_valor by lra.
  assert (Hp : 16 / 1000000 * (999 / 1000) <= y * (1 - y)).
  { apply Rmult_le_compat; lra. }
  lra.
Qed.

(** Magnitudes, for positions up to a million metres either way. *)
Lemma magnitudes (y : R) :
  Rabs y <= 1000000 ->
  0 <= deformacao (calcular_Energias y) <= 1000001 /\
  deformacao (calcular_Energias y) * deformacao (calcular_Energias y)
    <= 2000000000000 /\
  0 <= U_el (calcular_Energias y) <= 4000000000000000 /\
  Rabs (U_g (calcular_Energias y)) <= 1000000000 /\
  0 <= velocidade (calcular_Energias y) <= 4 /\
  0 <= K_c (calcular_Energias y) <= 500 /\
  Rabs (E_mec (calcular_Energias y)) <= 5000000000000000.
Proof.
  intros Hy. pose proof (Rabs_limites y _ Hy) as Hy'.
  assert (Hd : 0 <= deformacao (calcular_Energias y) <= 1000001).
  { rewrite deformacao_R. destruct (Rlt_dec y x_max) as [Hlt | Hge].
    - rewrite deformacao_mola_lt by assumption. rewrite x_max_R in *. lra.
    - rewrite deformacao_mola_ge by lra. lra. }
  assert (Hdd : deformacao (calcular_Energias y) * deformacao (calcular_Energias y)
                <= 2000000000000) by nra.
  assert (Hdd0 : 0 <= deformacao (calcular_Energias y)
                      * deformacao (calcular_Energias y)) by nra.
  assert (HUel : 0 <= U_el (calcular_Energias y) <= 4000000000000000).
  { rewrite U_el_R, <- deformacao_R, k_R.
    assert (deformacao (calcular_Energias y) * deformacao (calcular_Energias y)
            <= 1000001 * 1000001) by nra.
    lra. }
  assert (HUg : Rabs (U_g (calcular_Energias y)) <= 1000000000).
  { rewrite U_g_R, m_R, g_R.
    assert (Ha : - 1000000 <= ajusta y <= 1000000).
    { destruct (ajusta_cases y) as [[_ ->] | [_ ->]]; lra. }
    apply Rabs_le. lra. }
  pose proof (velocidade_nao_negativa y) as Hv0.
  pose proof (velocidade_quadrado_limitado y) as Hvv. rewrite g_R in Hvv.
  assert (Hv : velocidade (calcular_Energias y) <= 4) by nra.
  pose proof (K_c_nao_negativa y) as HK0.
  pose proof (K_c_limitada y) as HK. rewrite m_R, g_R, y_max_R in HK.
  assert (HKb : K_c (calcular_Energias y) <= 500) by lra.
  pose proof (Rabs_limites _ _ HUg) as HUg'.
  repeat split; try lra.
  rewrite E_mec_R. apply Rabs_le. lra.
Qed.

Lemma tolerancia_positiva : 0 < tolerancia.
Proof. rewrite tolerancia_valor. lra. Qed.

Lemma dentro_da_tolerancia (a b : R) : a = b -> Rabs (a - b) <= tolerancia.
Proof.
  intros ->. rewrite Rminus_diag, Rabs_R0. left. apply tolerancia_positiva.
Qed.

Lemma energia_acima_do_limiar (y : R) :
  limiar_ajuste < y < y_max -> y <> x_max ->
  E_mec (calcular_Energias y) = m * g * y_max.
Proof.
  intros Hy Hne. pose proof limiar_entre as Hl. rewrite y_max_R in Hy.
  change (@m R _ * g * y_max) with (@E_t R _).
  apply energia_entre_ajuste_e_topo; [lra | assumption].
Qed.

Lemma energia_com_margem_acima (y : R) :
  y_max + / 1000000000 <= y ->
  m * g * y_max + / 10000000 <= E_mec (calcular_Energias y) /\
  velocidade (calcular_Energias y) = 0.
Proof.
  intros Hy. rewrite y_max_R in Hy.
  assert (Hv : velocidade (calcular_Energias y) = 0)
    by (apply velocidade_nula_acima; rewrite y_max_R; lra).
  split; [|exact Hv].
  rewrite E_mec_R, (K_c_estacionaria y Hv), U_g_R, U_el_R.
  rewrite ajusta_acima by lra.
  rewrite deformacao_mola_ge by (rewrite x_max_R; lra).
  rewrite m_R, g_R, y_max_R, k_R. lra.
Qed.

Lemma energia_com_margem_abaixo (y : R) :
  y <= - / 1000000000 ->
  m * g * y_max + / 10000000 <= E_mec (calcular_Energias y) /\
  velocidade (calcular_Energias y) = 0.
Proof.
  intros Hy.
  assert (Hv : velocidade (calcular_Energias y) = 0)
    by (apply velocidade_nula_abaixo; lra).
  split; [|exact Hv].
  rewrite E_mec_R, (K_c_estacionaria y Hv), U_g_R, U_el_R.
  rewrite deformacao_mola_lt by (rewrite x_max_R; lra).
  rewrite m_R, g_R, y_max_R, k_R, x_max_R.
  destruct (ajusta_cases y) as [[_ Ha] | [_ Ha]]; rewrite Ha.
  - assert (H2 : / 1000000000 * 1 <= (- y) * (1 - y))
      by (apply Rmult_le_compat; lra).
    lra.
  - assert (H2 : / 1000000000 * 3 <= (- y) * (3 - 4 * y))
      by (apply Rmult_le_compat; lra).
    lra.
Qed.

Module Tolerancia.

Import PrimFloat.
Import B64.
Set Warnings "-inexact-float".

(** Below, [0x1.72e5d5cd95949p-2] is the script's sample 37,
    [(1 + cos 1.85) / 2] as a double, [0.36220487658774353]. *)

(** C1 (amended): for every position above the bound of the snap as the
    script holds it (the double [1e-3]) and below [y_max], other than
    [x_max], the total [K + U_g + U_el] equals [m g y_max] in exact
    arithmetic; on doubles it is within [1e-9] of the double of [m g y_max]
    at the first double above the bound and at sample 37, where rounding
    shows, and the double [1e-3] itself is snapped: velocity [0] and a
    total more than [3] below. *)
Theorem energia_conservada (y : R) :
  (limiar_ajuste < y < y_max)%R -> y <> x_max ->
  (E_mec (calcular_Energias y) = m * g * y_max /\
   K_c (calcular_Energias y) + U_g (calcular_Energias y)
     + U_el (calcular_Energias y) = m * g * y_max)%R /\
  (abs (E_mec (calcular_Energias (next_up 1e-3)) - E_t) <=? 1e-9)%float = true /\
  (abs (E_mec (calcular_Energias 0x1.72e5d5cd95949p-2) - E_t) <=? 1e-9)%float = true /\
  velocidade (calcular_Energias 1e-3%float) = 0%float /\
  (E_mec (calcular_Energias 1e-3%float) <? E_t - 3)%float = true.
Proof.
  intros Hy Hne.
  pose proof (energia_acima_do_limiar y Hy Hne) as HE.
  split; [split; [exact HE | rewrite <- E_mec_R; exact HE]|].
  repeat split; vm_compute; reflexivity.
Qed.

Lemma energia_conservada_witness :
  (E_mec (calcular_Energias (/ 4)) = m * g * y_max)%R.
Proof.
  assert (H1 : (limiar_ajuste < / 4 < y_max)%R).
  { pose proof limiar_entre. rewrite y_max_R. lra. }
  assert (H2 : (/ 4 <> x_max)%R) by (rewrite x_max_R; lra).
  exact (proj1 (proj1 (energia_conservada (/ 4) H1 H2))).
Defined.




(** C10 as stated fails on doubles: at the script's own sample 37 the
    computed total is above the double of [m g y_max], and at [y = 0.375],
    on a square-root branch with a positive velocity, it is below it. *)
Lemma orcamento_excedido :
  (0 <=? 0x1.72e5d5cd95949p-2)%float = true /\
  (0x1.72e5d5cd95949p-2 <=? y_max)%float = true /\
  (E_t <? E_mec (calcular_Energias 0x1.72e5d5cd95949p-2))%float = true /\
  (E_mec (calcular_Energias 0.375%float) <? E_t)%float = true /\
  (0 <? velocidade (calcular_Energias 0.375%float))%float = true.
Proof. repeat split; vm_compute; reflexivity. Qed.

(** C10 (amended): on [[0, y_max]] the reported total never exceeds the
    budget [m g y_max] by more than the tolerance; it is within the
    tolerance of it on the two square-root branches (above the bound of the
    snap), and can be below it by more than the tolerance only where the
    velocity is [0], as it is at [x_max]; every returned component is
    nonnegative.  On doubles the total is within [1e-9] of the double of
    [m g y_max] at sample 37 and at [0.375], and more than [441] below it
    at [x_max]. *)
Theorem energia_dentro_do_orcamento (y : R) :
  (0 <= y <= y_max)%R ->
  (E_mec (calcular_Energias y) <= m * g * y_max + tolerancia /\
   0 <= K_c (calcular_Energias y) /\
   0 <= U_g (calcular_Energias y) /\
   0 <= U_el (calcular_Energias y) /\
   0 <= velocidade (calcular_Energias y) /\
   0 <= deformacao (calcular_Energias y) /\
   (limiar_ajuste < y < x_max \/ x_max < y < y_max ->
      Rabs (E_mec (calcular_Energias y) - m * g * y_max) <= tolerancia) /\
   (E_mec (calcular_Energias y) < m * g * y_max - tolerancia ->
      velocidade (calcular_Energias y) = 0) /\
   E_mec (calcular_Energias x_max) < m * g * y_max - tolerancia)%R /\
  (abs (E_mec (calcular_Energias 0x1.72e5d5cd95949p-2) - E_t) <=? 1e-9)%float = true /\
  (abs (E_mec (calcular_Energias 0.375%float) - E_t) <=? 1e-9)%float = true /\
  (E_mec (calcular_Energias (@x_max float _)) <? E_t - 441)%float = true.
Proof.
  intros Hy. pose proof tolerancia_positiva as Ht.
  pose proof limiar_entre as Hl.
  pose proof (energia_limitada y Hy) as Hle.
  change (@E_t R _) with (@m R _ * g * y_max)%R in Hle.
  split.
  { split; [lra|].
    split; [apply K_c_nao_negativa|].
    split.
    { rewrite U_g_R, m_R, g_R. pose proof (ajusta_dominio y Hy).
      apply Rmult_le_pos; lra. }
    split; [apply U_el_nao_negativa|].
    split; [apply velocidade_nao_negativa|].
    split; [apply deformacao_nao_negativa; lra|].
    split.
    { intros Hb. apply dentro_da_tolerancia.
      apply energia_acima_do_limiar; rewrite ?x_max_R, ?y_max_R in *;
        destruct Hb; lra. }
    split.
    { intros Hlt.
      destruct (Rle_lt_dec y (/ 1000)) as [Hlo | Hlo];
        [apply velocidade_nula_abaixo; assumption|].
      destruct (Req_dec y x_max) as [He | Hne];
        [apply velocidade_nula_em_x_max; assumption|].
      destruct (Rle_lt_dec y_max y) as [Hhi | Hhi];
        [apply velocidade_nula_acima; assumption|].
      exfalso. rewrite y_max_R in Hhi.
      pose proof (energia_entre_ajuste_e_topo y (conj Hlo Hhi) Hne) as HE.
      change (@E_t R _) with (@m R _ * g * y_max)%R in HE. lra. }
    destruct energia_em_x_max_R as (_ & He & _).
    rewrite He, m_R, g_R, y_max_R, tolerancia_valor. lra. }
  repeat split; vm_compute; reflexivity.
Qed.

Lemma energia_dentro_do_orcamento_witness :
  (E_mec (calcular_Energias (3 / 4)) <= m * g * y_max + tolerancia)%R.
Proof.
  assert (H : (0 <= 3 / 4 <= y_max)%R) by (rewrite y_max_R; lra).
  exact (proj1 (proj1 (energia_dentro_do_orcamento (3 / 4) H))).
Defined.

(** X1: above the bound of the snap and below [x_max] the returned velocity
    satisfies [v^2 = 2 g y (3 - 4 y)], and between [x_max] and [y_max],
    [v^2 = 2 g (y_max - y)], both within the tolerance, and it is strictly
    positive.  On doubles the velocity is positive at the first double above
    the bound and [0] at the double [1e-3], and [v^2] at [0.25] is within
    [1e-9] of [2 g 0.25 (3 - 1)]. *)
Theorem velocidade_ao_quadrado (y : R) :
  ((limiar_ajuste < y < x_max ->
      Rabs (velocidade (calcular_Energias y) * velocidade (calcular_Energias y)
            - 2 * g * y * (3 - 4 * y)) <= tolerancia /\
      0 < velocidade (calcular_Energias y)) /\
   (x_max < y < y_max ->
      Rabs (velocidade (calcular_Energias y) * velocidade (calcular_Energias y)
            - 2 * g * (y_max - y)) <= tolerancia /\
      0 < velocidade (calcular_Energias y)))%R /\
  (0 <? velocidade (calcular_Energias (next_up 1e-3)))%float = true /\
  velocidade (calcular_Energias 1e-3%float) = 0%float /\
  (abs (velocidade (calcular_Energias 0.25%float)
        * velocidade (calcular_Energias 0.25%float)
        - 2 * g * 0.25 * (3 - 4 * 0.25)) <=? 1e-9)%float = true.
Proof.
  pose proof limiar_entre as Hl.
  split; [split; intros Hy|].
  - split.
    + apply dentro_da_tolerancia, velocidade_quadrado_na_mola. lra.
    + apply velocidade_positiva; rewrite ?x_max_R, ?y_max_R in *; lra.
  - split.
    + apply dentro_da_tolerancia, velocidade_quadrado_fora_da_mola. assumption.
    + apply velocidade_positiva; rewrite ?x_max_R, ?y_max_R in *; lra.
  - repeat split; vm_compute; reflexivity.
Qed.

(** X2: for every position that is not between [1/1000] and the double
    [1e-3] (no double is, but that double itself, for which the binary64
    instance is evaluated), the returned velocity is [0] exactly when the
    position is at most the bound of the snap (negative positions
    included), equal to [x_max], or at least [y_max]. *)
Theorem velocidade_nula_sse (y : R) :
  (y <= / 1000 \/ limiar_ajuste < y)%R ->
  (velocidade (calcular_Energias y) = 0 <->
   y <= limiar_ajuste \/ y = x_max \/ y_max <= y)%R /\
  velocidade (calcular_Energias 1e-3%float) = 0%float /\
  (to_R (next_down 1e-3) < / 1000 < limiar_ajuste)%R.
Proof.
  intros Hy. pose proof limiar_entre as Hl.
  split; [|split; [vm_compute; reflexivity
                  | split; [exact limiar_minimo | lra]]].
  rewrite velocidade_nula_onde. split.
  - intros [H | [H | H]]; [left; lra | right; left; exact H | right; right; exact H].
  - intros [H | [H | H]]; [left; lra | right; left; exact H | right; right; exact H].
Qed.

Lemma velocidade_nula_sse_witness :
  (velocidade (calcular_Energias (/ 2000)) = 0)%R.
Proof.
  assert (H : (/ 2000 <= / 1000 \/ limiar_ajuste < / 2000)%R) by (left; lra).
  apply (proj2 (proj1 (velocidade_nula_sse (/ 2000) H))).
  left. pose proof limiar_entre. lra.
Defined.

(** X3: the kinetic energy never exceeds nine sixteenths of [m g y_max] by
    more than the tolerance, whatever the position, and is within the
    tolerance of that value at [y = 3/8]; on doubles it is within [1e-9] of
    it at [0.375], and not more than [1e-9] above it at
    [0.37500000268000105], where rounding shows. *)
Theorem energia_cinetica_maxima (y : R) :
  (K_c (calcular_Energias y) <= 9 / 16 * (m * g * y_max) + tolerancia /\
   Rabs (K_c (calcular_Energias (3 / 8)) - 9 / 16 * (m * g * y_max))
     <= tolerancia)%R /\
  (abs (K_c (calcular_Energias 0.375%float) - 9 / 16 * E_t) <=? 1e-9)%float
    = true /\
  (K_c (calcular_Energias 0.37500000268000105%float)
     <=? 9 / 16 * E_t + 1e-9)%float = true.
Proof.
  pose proof tolerancia_positiva as Ht.
  split; [split|].
  - pose proof (K_c_limitada y). lra.
  - apply dentro_da_tolerancia.
    rewrite K_c_na_mola by (rewrite x_max_R; lra).
    rewrite m_R, g_R, y_max_R. field.
  - repeat split; vm_compute; reflexivity.
Qed.

(** X4: inside the domain the reported total is within the budget, up to
    the tolerance; outside it by at least [1e-9] (and within a million
    metres) the function still returns, with velocity [0] and a total
    above the budget by at least [1e-7]: unvalidated input shows as an
    excess of energy.  On doubles: sample 37 is within [1e-9] of the
    budget, and [-1e-9] and [1 + 1e-9] give totals above it by more than
    [1e-7]. *)
Theorem orcamento_e_dominio (y : R) :
  ((0 <= y <= y_max ->
      E_mec (calcular_Energias y) <= m * g * y_max + tolerancia) /\
   (- 1000000 <= y <= - / 1000000000
    \/ y_max + / 1000000000 <= y <= 1000000 ->
      m * g * y_max + / 10000000 <= E_mec (calcular_Energias y) /\
      velocidade (calcular_Energias y) = 0))%R /\
  (E_mec (calcular_Energias 0x1.72e5d5cd95949p-2) <=? E_t + 1e-9)%float = true /\
  (E_t + 1e-7 <? E_mec (calcular_Energias (-1e-9)))%float = true /\
  (E_t + 1e-7 <? E_mec (calcular_Energias (1 + 1e-9)))%float = true.
Proof.
  pose proof tolerancia_positiva as Ht.
  split; [split|].
  - intros Hy. pose proof (energia_limitada y Hy) as Hle.
    change (@E_t R _) with (@m R _ * g * y_max)%R in Hle. lra.
  - intros [Hy | Hy].
    + apply energia_com_margem_abaixo. lra.
    + apply energia_com_margem_acima. lra.
  - repeat split; vm_compute; reflexivity.
Qed.

(** X5: for every position within a million metres of the origin, inside
    [[0, y_max]] or not, the evaluation with an undefined value for the
    square root of a negative number and for a division by zero returns six
    defined numbers, and every magnitude stays far below the range of a
    double: the squared deformation is at most [2e12], the total at most
    [5e15] in absolute value.  On doubles the totals at [1e6] and [-1e6]
    are finite. *)
Theorem calcular_Energias_sempre_definida (y : R) :
  (Rabs y <= 1000000)%R ->
  calcular_Energias (Some y) = Energias_map Some (calcular_Energias y) /\
  (0 <= deformacao (calcular_Energias y) <= 1000001 /\
   deformacao (calcular_Energias y) * deformacao (calcular_Energias y)
     <= 2000000000000 /\
   0 <= U_el (calcular_Energias y) <= 4000000000000000 /\
   Rabs (U_g (calcular_Energias y)) <= 1000000000 /\
   0 <= velocidade (calcular_Energias y) <= 4 /\
   0 <= K_c (calcular_Energias y) <= 500 /\
   Rabs (E_mec (calcular_Energias y)) <= 5000000000000000)%R /\
  (abs (E_mec (calcular_Energias 1e6%float)) <? 5e15)%float = true /\
  (abs (E_mec (calcular_Energias (-1e6)%float)) <? 5e15)%float = true.
Proof.
  intros Hy.
  split; [apply calcular_Energias_definida_em_R|].
  split; [exact (magnitudes y Hy)|].
  split; vm_compute; reflexivity.
Qed.

Lemma calcular_Energias_sempre_definida_witness :
  calcular_Energias (Some (- 5)%R) = Energias_map Some (calcular_Energias (- 5)%R).
Proof.
  assert (H : (Rabs (- 5) <= 1000000)%R).
  { apply Rabs_le. lra. }
  exact (proj1 (calcular_Energias_sempre_definida (- 5)%R H)).
Defined.

(** X7: the times of the trajectory increase strictly, each step within
    [1e-12] of [dt]; every time lies in [[0, t_total)], and one more step
    after the last would reach or pass [t_total]. *)
Theorem tempos_regulares (i : nat) :
  (i < 125)%nat ->
  (nth i tempos 0 < nth (S i) tempos 0 /\
   Rabs (nth (S i) tempos 0 - nth i tempos 0 - dt) <= / 1000000000000 /\
   0 <= nth i tempos 0 /\
   nth (S i) tempos 0 < t_total /\
   t_total <= nth 125 tempos 0 + dt)%R.
Proof.
  intros Hi. pose proof PI_entre as HPI.
  rewrite !tempos_nth by lia. rewrite dt_R. unfold t_total.
  rewrite Nat2Z.inj_succ, succ_IZR.
  assert (Hr : (0 <= IZR (Z.of_nat i) <= 124)%R) by (split; apply IZR_le; lia).
  cbn [Z.of_nat Pos.of_succ_nat Pos.succ].
  repeat split; try lra.
  apply Rabs_le. lra.
Qed.

Lemma tempos_regulares_witness :
  (nth 0 tempos 0 < nth 1 tempos 0)%R.
Proof.
  assert (H : (0 < 125)%nat) by lia.
  exact (proj1 (tempos_regulares 0 H)).
Defined.

(** X9: at every sample of the trajectory the reported total is at most
    [m g y_max], up to the tolerance; it is within the tolerance of
    [m g y_max] at all samples except 62 to 64, which fall inside the snap
    and where it is at least [0.05] below.  On doubles, at sample 37 the
    total is within [1e-9] of the double of [m g y_max]. *)
Theorem energia_nas_amostras (i : nat) :
  (i < 126)%nat ->
  (E_mec (calcular_Energias (nth i posicoes 0)) <= m * g * y_max + tolerancia /\
   (Rabs (E_mec (calcular_Energias (nth i posicoes 0)) - m * g * y_max)
      <= tolerancia <-> ~ (62 <= i <= 64)%nat) /\
   ((62 <= i <= 64)%nat ->
      E_mec (calcular_Energias (nth i posicoes 0)) <= m * g * y_max - / 20))%R /\
  (abs (E_mec (calcular_Energias 0x1.72e5d5cd95949p-2) - E_t) <=? 1e-9)%float
    = true.
Proof.
  intros Hi. pose proof tolerancia_positiva as Ht.
  pose proof tolerancia_valor as Htv.
  split; [|vm_compute; reflexivity].
  destruct (Nat.le_gt_cases 62 i) as [Ha | Ha];
    [destruct (Nat.le_gt_cases i 64) as [Hb | Hb]|].
  - pose proof (energia_amostra_ajustada i (conj Ha Hb)) as HE.
    split; [lra|]. split; [|intros _; exact HE].
    split; [|intros Hn; exfalso; apply Hn; lia].
    intros Hab. exfalso. apply Rabs_limites in Hab. lra.
  - assert (Hn : ~ (62 <= i <= 64)%nat) by lia.
    pose proof (energia_amostra_conservada i Hi Hn) as HE.
    split; [lra|]. split; [|intros Hm; exfalso; lia].
    split; [intros _; exact Hn | intros _; apply dentro_da_tolerancia, HE].
  - assert (Hn : ~ (62 <= i <= 64)%nat) by lia.
    pose proof (energia_amostra_conservada i Hi Hn) as HE.
    split; [lra|]. split; [|intros Hm; exfalso; lia].
    split; [intros _; exact Hn | intros _; apply dentro_da_tolerancia, HE].
Qed.

Lemma energia_nas_amostras_witness :
  (Rabs (E_mec (calcular_Energias (nth 10 posicoes 0)) - m * g * y_max)
   <= tolerancia)%R.
Proof.
  assert (H : (10 < 126)%nat) by lia.
  apply (proj2 (proj1 (proj2 (proj1 (energia_nas_amostras 10 H))))). lia.
Defined.

End Tolerancia.
